(** * generate-dashboard-redirect.py: a shallow embedding and its properties

    The script reads a manifest template, asks the cluster (through [oc] or
    [kubectl]) which platform flavour is installed and where its dashboard
    lives, and renders the template.  This development embeds its functions
    one by one:

    - [discover_variables]    the placeholder extractor (a regular-expression scan);
    - [run_command]           the only I/O boundary, a call into the cluster;
    - [detect_platform], [discover_redirect_url], [auto_discover_values]
                              the cluster queries and the variable resolver;
    - [render_template]       substitution, host injection, legacy route.

    Python strings are modelled as [string] (the UTF-8 bytes of the text: every
    character the script looks at is ASCII, and byte order agrees with code
    point order).  Values coming out of [json.loads] are dynamically typed, so
    they are modelled by an inductive [pyval] with Python's own rules for
    truthiness, [.get], [in] and iteration.  Exceptions are values of [exn] in
    an error monad; cluster calls are logged in a state monad.  The [print]
    calls of the script change nothing the functions return and are left
    out. *)

From Stdlib Require Import Ascii Floats.SpecFloat.
From stdpp Require Import base option list strings gmap sorting.

(** ** Characters and strings as Python sees them *)

Module Py.

Definition LF : Ascii.ascii := "010"%char.
Definition DQUOTE : Ascii.ascii := "034"%char.

(** [sub in s] on two [str]: substring test. *)
Fixpoint contains (sub s : string) : bool :=
  String.prefix sub s ||
  match s with
  | "" => false
  | String _ s' => contains sub s'
  end.

(** [c in s] for a single character. *)
Fixpoint has_char (c : Ascii.ascii) (s : string) : bool :=
  match s with
  | "" => false
  | String a s' => Ascii.eqb a c || has_char c s'
  end.

Fixpoint drop (n : nat) (s : string) : string :=
  match n, s with
  | S n', String _ s' => drop n' s'
  | _, _ => s
  end.

(** [s.replace(old, new, 1)]: the leftmost occurrence of [old] is replaced,
    nothing else.  (With an empty [old] Python inserts [new] in front.) *)
Fixpoint replace_first (old new s : string) : string :=
  if String.prefix old s then new +:+ drop (String.length old) s
  else match s with
       | "" => ""
       | String c s' => String c (replace_first old new s')
       end.

(** [s.rstrip(c)] for a one-character argument. *)
Fixpoint rstrip (c : Ascii.ascii) (s : string) : string :=
  match s with
  | "" => ""
  | String a s' =>
      match rstrip c s' with
      | "" => if Ascii.eqb a c then "" else String a ""
      | t => String a t
      end
  end.

(** Whitespace of [str.strip()] in the ASCII range: TAB, LF, VT, FF, CR,
    FS, GS, RS, US and the space. *)
Definition isspace (a : Ascii.ascii) : bool :=
  let n := Ascii.N_of_ascii a in
  ((9 <=? n) && (n <=? 13) || (28 <=? n) && (n <=? 32))%N.

Fixpoint lstrip_space (s : string) : string :=
  match s with
  | "" => ""
  | String a s' => if isspace a then lstrip_space s' else s
  end.

Fixpoint rstrip_space (s : string) : string :=
  match s with
  | "" => ""
  | String a s' =>
      match rstrip_space s' with
      | "" => if isspace a then "" else String a ""
      | t => String a t
      end
  end.

Definition strip (s : string) : string := rstrip_space (lstrip_space s).

(** [s.split(sep, 1)]: at most one cut, at the leftmost separator. *)
Fixpoint split_once (sep : Ascii.ascii) (s : string) : list string :=
  match s with
  | "" => [""]
  | String a s' =>
      if Ascii.eqb a sep then [""; s']
      else match split_once sep s' with
           | h :: t => String a h :: t
           | [] => [String a ""]
           end
  end.

(** ["\n".join(ls) + "\n"]: every line closed by a line feed. *)
Fixpoint unlines (ls : list string) : string :=
  match ls with
  | [] => ""
  | l :: ls' => l +:+ String LF (unlines ls')
  end.

(** [sorted(xs)] on a set of [str]: ascending in the lexicographic order of
    the characters.  A set has no repeated element, so the result does not
    depend on the sorting algorithm. *)
Definition sorted (xs : gset string) : list string :=
  merge_sort String.le (elements xs).

(** *** Exceptions and results *)

Inductive exn :=
  | AttributeError
  | TypeError
  | ValueError
  | KeyError (key : string)
  | JSONDecodeError
  | SystemExit (code : Z).

Inductive result (A : Type) :=
  | Returns (a : A)
  | Raises (e : exn).
Global Arguments Returns {A} a.
Global Arguments Raises {A} e.

Global Instance result_ret : MRet result := λ A a, Returns a.
Global Instance result_bind : MBind result := λ A B k r,
  match r with
  | Returns a => k a
  | Raises e => Raises e
  end.
Global Instance result_fmap : FMap result := λ A B f r,
  match r with
  | Returns a => Returns (f a)
  | Raises e => Raises e
  end.

(** *** Dynamically typed values: what [json.loads] builds *)

#[warnings="-register-all"]
Inductive pyval :=
  | PNone
  | PBool (b : bool)
  | PInt (z : Z)
  | PFloat (f : spec_float)
  | PStr (s : string)
  | PList (l : list pyval)
  | PDict (d : list (string * pyval)).

(** [bool(v)] *)
Definition truthy (v : pyval) : bool :=
  match v with
  | PNone => false
  | PBool b => b
  | PInt z => negb (z =? 0)%Z
  | PFloat (S754_zero _) => false
  | PFloat _ => true
  | PStr s => negb (String.eqb s "")
  | PList l => negb (bool_decide (l = []))
  | PDict d => negb (bool_decide (d = []))
  end.

(** [a or b] *)
Definition or_else (a b : pyval) : pyval := if truthy a then a else b.

(** The binding of [key] in a [dict]. *)
Fixpoint dict_lookup (key : string) (d : list (string * pyval)) : option pyval :=
  match d with
  | [] => None
  | (k, v) :: d' => if String.eqb k key then Some v else dict_lookup key d'
  end.

(** [obj.get(key, default)]: only a [dict] has the method. *)
Definition get (obj : pyval) (key : string) (default : pyval) : result pyval :=
  match obj with
  | PDict d => Returns (from_option id default (dict_lookup key d))
  | _ => Raises AttributeError
  end.

(** [v == s] for a [str] literal [s]: never raises, false across types. *)
Definition eq_str (v : pyval) (s : string) : bool :=
  match v with
  | PStr x => String.eqb x s
  | _ => false
  end.

(** [needle in container] for a [str] needle: a substring test on a [str],
    element equality on a [list], a key test on a [dict]; anything else is
    not a container. *)
Definition str_in (needle : string) (container : pyval) : result bool :=
  match container with
  | PStr s => Returns (contains needle s)
  | PList l => Returns (existsb (λ v, eq_str v needle) l)
  | PDict d => Returns (existsb (λ kv, String.eqb kv.1 needle) d)
  | _ => Raises TypeError
  end.

Fixpoint chars (s : string) : list pyval :=
  match s with
  | "" => []
  | String c s' => PStr (String c "") :: chars s'
  end.

(** [iter(v)], as the list a [for] loop walks through: the elements of a
    [list], the characters of a [str], the keys of a [dict]. *)
Definition iter (v : pyval) : result (list pyval) :=
  match v with
  | PList l => Returns l
  | PStr s => Returns (chars s)
  | PDict d => Returns (map (λ kv, PStr kv.1) d)
  | _ => Raises TypeError
  end.

(** [v.rstrip('/')]: a [str] method. *)
Definition rstrip_slash (v : pyval) : result pyval :=
  match v with
  | PStr s => Returns (PStr (rstrip "/" s))
  | _ => Raises AttributeError
  end.

End Py.
Export Py.

(** ** [re.compile(r'\$\{([^}]+)\}')] *)

Module Re.

(** [[^}]*] followed by the closing brace: the characters up to the first
    ["}"], or nothing when the text ends before one. *)
Fixpoint group_until_brace (s : string) : option string :=
  match s with
  | "" => None
  | String c s' =>
      if Ascii.eqb c "}" then Some ""
      else String c <$> group_until_brace s'
  end.

(** The pattern anchored at the head of [s]; the answer is [group(1)].  The
    group takes at least one character, and it can only end at the first
    closing brace, so there is at most one way to match. *)
Definition match_here (s : string) : option string :=
  match s with
  | String c0 (String c1 s') =>
      if Ascii.eqb c0 "$" && Ascii.eqb c1 "{" then
        match group_until_brace s' with
        | Some (String c g) => Some (String c g)
        | _ => None
        end
      else None
  | _ => None
  end.

Global Arguments match_here : simpl never.

(** [pattern.finditer(content)], as the list of [match.group(1)]: leftmost
    matches, each scan resuming behind the previous match.  [skip] counts the
    characters of the current match that are still to be passed over. *)
Fixpoint finditer_from (skip : nat) (s : string) : list string :=
  match s with
  | "" => []
  | String _ s' =>
      match skip with
      | S k => finditer_from k s'
      | O =>
          match match_here s with
          | Some g => g :: finditer_from (2 + String.length g) s'
          | None => finditer_from 0 s'
          end
      end
  end.

Definition finditer (content : string) : list string := finditer_from 0 content.

End Re.

(** ** [discover_variables] *)

Definition discover_variables (content : string) : list string :=
  let variables : gset string :=
    foldl (λ variables name, variables ∪ {[ name ]}) ∅ (Re.finditer content) in
  Py.sorted variables.

(** ** [string.Template]

    The class scans for the delimiter ["$"] followed by one of four
    alternatives, tried in this order: a second delimiter (an escape), an
    identifier, an identifier in braces, or nothing (an ill-formed
    placeholder).  Identifiers are ASCII: a letter or underscore, then
    letters, digits and underscores. *)

Module Template.

Definition between (lo hi c : Ascii.ascii) : bool :=
  (Ascii.N_of_ascii lo <=? Ascii.N_of_ascii c)%N &&
  (Ascii.N_of_ascii c <=? Ascii.N_of_ascii hi)%N.

Definition is_id_start (c : Ascii.ascii) : bool :=
  Ascii.eqb c "_" || between "a" "z" c || between "A" "Z" c.

Definition is_id_char (c : Ascii.ascii) : bool :=
  is_id_start c || between "0" "9" c.

(** [[_a-z0-9]*], greedy. *)
Fixpoint id_chars (s : string) : string :=
  match s with
  | "" => ""
  | String c s' => if is_id_char c then String c (id_chars s') else ""
  end.

(** [[_a-z][_a-z0-9]*] at the head of [s], greedy. *)
Definition identifier_at (s : string) : option string :=
  match s with
  | "" => None
  | String c s' => if is_id_start c then Some (String c (id_chars s')) else None
  end.

Inductive placeholder :=
  | Escaped
  | Named (name : string)
  | Braced (name : string)
  | Invalid.

(** Which alternative matches the text behind a delimiter. *)
Definition after_delimiter (s : string) : placeholder :=
  match s with
  | "" => Invalid
  | String c s' =>
      if Ascii.eqb c "$" then Escaped
      else match identifier_at s with
           | Some name => Named name
           | None =>
               if Ascii.eqb c "{" then
                 match identifier_at s' with
                 | Some name =>
                     match drop (String.length name) s' with
                     | String c' _ => if Ascii.eqb c' "}" then Braced name else Invalid
                     | "" => Invalid
                     end
                 | None => Invalid
                 end
               else Invalid
           end
  end.

(** [mapping[name]] *)
Definition getitem (mapping : gmap string string) (name : string) : result string :=
  match mapping !! name with
  | Some v => Returns v
  | None => Raises (KeyError name)
  end.

(** [pattern.sub(convert, template)]: the matches are converted from left to
    right, so the first placeholder that fails decides the exception.
    [skip] counts the characters of the current match still to be passed
    over. *)
Fixpoint substitute_from (mapping : gmap string string) (skip : nat) (s : string)
  : result string :=
  match s with
  | "" => Returns ""
  | String c s' =>
      match skip with
      | S k => substitute_from mapping k s'
      | O =>
          if Ascii.eqb c "$" then
            match after_delimiter s' with
            | Escaped => String "$" <$> substitute_from mapping 1 s'
            | Named name =>
                v ← getitem mapping name;
                String.app v <$> substitute_from mapping (String.length name) s'
            | Braced name =>
                v ← getitem mapping name;
                String.app v <$> substitute_from mapping (2 + String.length name) s'
            | Invalid => Raises ValueError
            end
          else String c <$> substitute_from mapping 0 s'
      end
  end.

(** [Template(template).substitute(mapping)] *)
Definition substitute (template : string) (mapping : gmap string string) : result string :=
  substitute_from mapping 0 template.

End Template.

(** ** Talking to the cluster

    [subprocess.run] is the outside world: for a command line it either
    completes with a return code and its standard output, or raises one of
    the two exceptions [run_command] catches.  [json.loads] is the standard
    decoder; it raises [JSONDecodeError] on text that is not JSON.  Both are
    parameters of the embedding.  Every command line that is run is
    appended to a log, so that "was this query made" is a property of the
    final state. *)

Inductive completed :=
  | Completed (returncode : Z) (stdout : string)
  | TimeoutExpired
  | FileNotFoundError.

Definition command_log := list (list string).

Definition M (A : Type) : Type := command_log → result A * command_log.

Global Instance M_ret : MRet M := λ A a log, (Returns a, log).
Global Instance M_bind : MBind M := λ A B k m log,
  match m log with
  | (Returns a, log') => k a log'
  | (Raises e, log') => (Raises e, log')
  end.

(** A computation that does not touch the cluster. *)
Definition pure {A} (r : result A) : M A := λ log, (r, log).

(** [sys.exit(code)] *)
Definition sys_exit {A} (code : Z) : M A := pure (Raises (SystemExit code)).

(** [try: body  except json.JSONDecodeError: handler] *)
Definition except_JSONDecodeError {A} (body handler : M A) : M A := λ log,
  match body log with
  | (Raises JSONDecodeError, log') => handler log'
  | r => r
  end.

(** [if out:] on what [run_command] returned: the text, when there is some. *)
Definition if_output (out : option string) : option string :=
  match out with
  | Some (String c s) => Some (String c s)
  | _ => None
  end.

Definition nonempty (out : option string) : bool :=
  match if_output out with
  | Some _ => true
  | None => false
  end.

(** The platform descriptor: [(platform_type, namespace, route_name)]. *)
Definition descriptor : Type := pyval * pyval * pyval.

Definition RHOAI (namespace : pyval) : descriptor :=
  (PStr "rhoai", namespace, PStr "rhods-dashboard").
Definition ODH (namespace : pyval) : descriptor :=
  (PStr "odh", namespace, PStr "odh-dashboard").
Definition UNKNOWN : descriptor := (PNone, PNone, PNone).

Definition GET_ODHDASHBOARDCONFIG : list string :=
  ["get"; "odhdashboardconfig"; "-A"; "-o"; "json"].
Definition GET_SUBSCRIPTION (operator : string) : list string :=
  ["get"; "subscription"; "-A"; "-o";
   "jsonpath={.items[?(@.spec.name==" +:+ String DQUOTE operator +:+
   String DQUOTE ")].metadata.name}"].
Definition GET_CONSOLELINK : list string := ["get"; "consolelink"; "-o"; "json"].
Definition GET_ROUTE : list string :=
  ["get"; "route"; "data-science-gateway"; "-A"; "-o"; "jsonpath={.items[0].spec.host}"].

(** The command lines as they are run, the tool in front. *)
Definition CONFIG_QUERY (cli : string) : list string := cli :: GET_ODHDASHBOARDCONFIG.
Definition RHOAI_QUERY (cli : string) : list string :=
  cli :: GET_SUBSCRIPTION "rhods-operator".
Definition ODH_QUERY (cli : string) : list string :=
  cli :: GET_SUBSCRIPTION "opendatahub-operator".
Definition CONSOLELINK_QUERY (cli : string) : list string := cli :: GET_CONSOLELINK.
Definition ROUTE_QUERY (cli : string) : list string := cli :: GET_ROUTE.

(** The three reads at the top of the loop body of [detect_platform]. *)
Definition config_fields (item : pyval) : result (pyval * pyval * pyval) :=
  metadata ← get item "metadata" (PDict []);
  annotations ← get metadata "annotations" (PDict []);
  platform_type_annotation ← get annotations "platform.opendatahub.io/type" (PStr "");
  metadata ← get item "metadata" (PDict []);
  namespace ← get metadata "namespace" (PStr "");
  metadata ← get item "metadata" (PDict []);
  labels ← get metadata "labels" (PDict []);
  app_label ← get labels "app" (PStr "");
  Returns (platform_type_annotation, namespace, app_label).

(** One turn of the loop of [detect_platform]: [Some d] when the body
    returns [d], [None] when the loop goes on. *)
Definition classify_config (item : pyval) : result (option descriptor) :=
  '(platform_type_annotation, namespace, app_label) ← config_fields item;
  marker ← str_in "OpenShift AI" platform_type_annotation;
  if marker || eq_str app_label "rhods-dashboard" then
    Returns (Some (RHOAI (or_else namespace (PStr "redhat-ods-applications"))))
  else if eq_str app_label "odh-dashboard" then
    Returns (Some (ODH (or_else namespace (PStr "opendatahub"))))
  else Returns None.

Fixpoint scan_configs (items : list pyval) : result (option descriptor) :=
  match items with
  | [] => Returns None
  | item :: items' =>
      r ← classify_config item;
      match r with
      | Some d => Returns (Some d)
      | None => scan_configs items'
      end
  end.

(** One turn of the loop of [discover_redirect_url]. *)
Definition classify_link (item : pyval) : result (option pyval) :=
  spec ← get item "spec" (PDict []);
  text ← get spec "text" (PStr "");
  rhoai ← str_in "OpenShift AI" text;
  wanted ← (if rhoai : bool then Returns true else str_in "Open Data Hub" text);
  if wanted : bool then
    spec ← get item "spec" (PDict []);
    href ← get spec "href" (PStr "");
    if truthy href then Some <$> rstrip_slash href else Returns None
  else Returns None.

Fixpoint scan_links (items : list pyval) : result (option pyval) :=
  match items with
  | [] => Returns None
  | item :: items' =>
      r ← classify_link item;
      match r with
      | Some url => Returns (Some url)
      | None => scan_links items'
      end
  end.

Section cluster.

Variable json_loads : string → result pyval.
Variable cli : string.
Variable subprocess_run : list string → completed.

(** What [run_command(cli, args)] returns. *)
Definition run_command_value (args : list string) : option string :=
  match subprocess_run (cli :: args) with
  | Completed 0 stdout => Some (strip stdout)
  | Completed _ _ => None
  | TimeoutExpired | FileNotFoundError => None
  end.

Definition run_command (args : list string) : M (option string) := λ log,
  (Returns (run_command_value args), log ++ [cli :: args]).

(** The part of [detect_platform] after the configuration query: the two
    subscription probes. *)
Definition subscription_probes : M descriptor :=
  rhoai_sub ← run_command (GET_SUBSCRIPTION "rhods-operator");
  if nonempty rhoai_sub then
    mret (RHOAI (PStr "redhat-ods-applications"))
  else
    odh_sub ← run_command (GET_SUBSCRIPTION "opendatahub-operator");
    if nonempty odh_sub then
      mret (ODH (PStr "opendatahub"))
    else mret UNKNOWN.

(** The body of the [try] block of [detect_platform]. *)
Definition scan_config_output (dashboard_config : string) : result (option descriptor) :=
  data ← json_loads dashboard_config;
  items ← get data "items" (PList []);
  items ← iter items;
  scan_configs items.

Definition detect_platform : M descriptor :=
  dashboard_config ← run_command GET_ODHDASHBOARDCONFIG;
  found ← match if_output dashboard_config with
          | Some text =>
              except_JSONDecodeError
                (pure (scan_config_output text))
                (mret None)
          | None => mret None
          end;
  match found with
  | Some d => mret d
  | None => subscription_probes
  end.

(** The body of the [try] block of [discover_redirect_url]. *)
Definition scan_link_output (consolelink_url : string) : result (option pyval) :=
  data ← json_loads consolelink_url;
  items ← get data "items" (PList []);
  items ← iter items;
  scan_links items.

Definition discover_redirect_url : M pyval :=
  consolelink_url ← run_command GET_CONSOLELINK;
  found ← match if_output consolelink_url with
          | Some text =>
              except_JSONDecodeError
                (pure (scan_link_output text))
                (mret None)
          | None => mret None
          end;
  match found with
  | Some url => mret url
  | None =>
      route_host ← run_command GET_ROUTE;
      match if_output route_host with
      | Some host => mret (PStr ("https://" +:+ host))
      | None => mret PNone
      end
  end.

(** The [for var in variables] loop of [auto_discover_values]. *)
Fixpoint resolve (redirect_url_override : option string)
    (variables : list string) (values : gmap string pyval)
  : M (gmap string pyval) :=
  match variables with
  | [] => mret values
  | var :: variables' =>
      if bool_decide (is_Some (values !! var)) then
        resolve redirect_url_override variables' values
      else
        discovered ←
          (if String.eqb var "REDIRECT_URL" then
             match if_output redirect_url_override with
             | Some url => mret (PStr url)
             | None => discover_redirect_url
             end
           else mret PNone);
        if truthy discovered then
          resolve redirect_url_override variables' (<[var := discovered]> values)
        else if bool_decide (values !! var = None) then sys_exit 1
        else resolve redirect_url_override variables' values
  end.

Definition auto_discover_values (variables : list string)
    (redirect_url_override : option string) : M (gmap string pyval) :=
  '(platform_type, namespace, route_name) ← detect_platform;
  if negb (truthy platform_type) then sys_exit 1
  else
    let values : gmap string pyval := ∅ in
    let values :=
      if bool_decide ("NAMESPACE" ∈ variables)
      then <["NAMESPACE" := namespace]> values else values in
    let values :=
      if bool_decide ("ROUTE_NAME" ∈ variables)
      then <["ROUTE_NAME" := route_name]> values else values in
    resolve redirect_url_override variables values.

End cluster.

(** ** [render_template]

    [urllib.parse.urlparse(url).hostname] is the standard URL parser: the
    lower-cased host of the URL, [None] when it has none, [ValueError] on a
    malformed authority.  It is a parameter of the embedding.  The value map
    holds strings, which is what [str()] of a resolved value is. *)

(** The text the host injection looks for: ["spec:\n  port:"]. *)
Definition SPEC_PORT : string := "spec:" +:+ String LF "  port:".

(** The replacement: [f"spec:\n  host: {route_host_override}\n  port:"]. *)
Definition SPEC_HOST_PORT (host : string) : string :=
  "spec:" +:+ String LF ("  host: " +:+ host +:+ String LF "  port:").

(** Lines 225 to 233: the host field goes in front of the first
    ["  port:"] that follows a ["spec:"] line. *)
Definition inject_route_host (rendered : string) (route_host_override : option string)
  : string :=
  match if_output route_host_override with
  | Some host => replace_first SPEC_PORT (SPEC_HOST_PORT host) rendered
  | None => rendered
  end.

(** The f-string [dsg_route]. *)
Definition dsg_route (namespace host_line : string) : string :=
  unlines
    [ "---";
      "apiVersion: route.openshift.io/v1";
      "kind: Route";
      "metadata:";
      "  name: data-science-gateway-legacy";
      "  namespace: " +:+ namespace;
      "  annotations:";
      "    haproxy.router.openshift.io/hsts_header: max-age=31536000;includeSubDomains;preload";
      "    kubernetes.io/tls-acme: " +:+ String DQUOTE "true" +:+ String DQUOTE "";
      "  labels:";
      "    app: nginx-redirect";
      "spec:" ] +:+
  host_line +:+
  unlines
    [ "  port:";
      "    targetPort: http";
      "  tls:";
      "    insecureEdgeTerminationPolicy: Redirect";
      "    termination: edge";
      "  to:";
      "    kind: Service";
      "    name: nginx-redirect";
      "    weight: 100";
      "  wildcardPolicy: None" ].

(** Lines 243 to 252: the legacy host name, from the host of the URL. *)
Definition legacy_host_of (hostname : option string) : option string :=
  match hostname with
  | Some (String c h) =>
      match split_once "." (String c h) with
      | _ :: apps_domain :: _ => Some ("data-science-gateway." +:+ apps_domain)
      | _ => None
      end
  | _ => None
  end.

Definition host_line_of (legacy_host : option string) : string :=
  match if_output legacy_host with
  | Some host => "  host: " +:+ host +:+ String LF ""
  | None => ""
  end.

Section render.

Variable urlparse_hostname : string → result (option string).

(** Lines 215 to 222: substitution; a missing key ends the run. *)
Definition substitute_values (content : string) (values : gmap string string)
  : result string :=
  match Template.substitute content values with
  | Raises (KeyError _) => Raises (SystemExit 1)
  | r => r
  end.

(** Lines 238 to 280: the second manifest, when the redirect URL mentions
    ["rh-ai"]. *)
Definition append_legacy_route (rendered : string) (values : gmap string string)
  : result string :=
  match values !! "REDIRECT_URL" with
  | Some redirect_url =>
      if contains "rh-ai" redirect_url then
        hostname ← urlparse_hostname redirect_url;
        let legacy_host := legacy_host_of hostname in
        let host_line := host_line_of legacy_host in
        namespace ← Template.getitem values "NAMESPACE";
        Returns (rendered +:+ dsg_route namespace host_line)
      else Returns rendered
  | None => Returns rendered
  end.

(** What [render_template] writes to [output_path], from the text of the
    template file. *)
Definition render_template (content : string) (values : gmap string string)
    (route_host_override : option string) : result string :=
  rendered ← substitute_values content values;
  let rendered := inject_route_host rendered route_host_override in
  append_legacy_route rendered values.

End render.

(** A reading of [urlparse(url).hostname] for URLs without control
    characters and without a bracketed (IPv6) host, used to run the embedding
    on examples: an optional scheme, then ["//"] and the authority up to the
    first ["/"], ["?"] or ["#"]; of the authority, what follows the last
    ["@"] up to the first [":"], in lower case. *)
Module Url.

Definition is_alpha (c : Ascii.ascii) : bool :=
  Template.between "a" "z" c || Template.between "A" "Z" c.

Definition is_scheme_char (c : Ascii.ascii) : bool :=
  is_alpha c || Template.between "0" "9" c ||
  Ascii.eqb c "+" || Ascii.eqb c "-" || Ascii.eqb c ".".

(** What follows the first [":"], when only scheme characters precede it. *)
Fixpoint after_scheme (s : string) : option string :=
  match s with
  | "" => None
  | String c s' =>
      if Ascii.eqb c ":" then Some s'
      else if is_scheme_char c then after_scheme s' else None
  end.

Definition strip_scheme (url : string) : string :=
  match url with
  | String c _ =>
      if is_alpha c then from_option id url (after_scheme url) else url
  | "" => ""
  end.

Fixpoint take_until (stop : Ascii.ascii → bool) (s : string) : string :=
  match s with
  | "" => ""
  | String c s' => if stop c then "" else String c (take_until stop s')
  end.

Definition netloc (url : string) : string :=
  match strip_scheme url with
  | String "/" (String "/" rest) =>
      take_until (λ c, Ascii.eqb c "/" || Ascii.eqb c "?" || Ascii.eqb c "#") rest
  | _ => ""
  end.

(** [netloc.rpartition('@')[2]] *)
Fixpoint after_last_at (s : string) : string :=
  match s with
  | "" => ""
  | String c s' =>
      if has_char "@" s' then after_last_at s'
      else if Ascii.eqb c "@" then s' else s
  end.

Definition lower (c : Ascii.ascii) : Ascii.ascii :=
  if Template.between "A" "Z" c
  then Ascii.ascii_of_N (Ascii.N_of_ascii c + 32) else c.

Fixpoint lowercase (s : string) : string :=
  match s with
  | "" => ""
  | String c s' => String (lower c) (lowercase s')
  end.

Definition hostname (url : string) : result (option string) :=
  let host := take_until (λ c, Ascii.eqb c ":") (after_last_at (netloc url)) in
  Returns (if String.eqb host "" then None else Some (lowercase host)).

End Url.

(** ** Vocabulary of the statements *)

(** A template in which every delimiter opens a braced identifier: plain
    text without ["$"], and placeholders [${name}]. *)
Definition is_identifier (name : string) : bool :=
  match name with
  | "" => false
  | String c s => Template.is_id_start c && String.eqb (Template.id_chars s) s
  end.

Definition placeholder_text (name rest : string) : string :=
  String "$" (String "{" (name +:+ String "}" rest)).

Inductive plain_template : string → Prop :=
  | plain_end : plain_template ""
  | plain_char c s :
      c ≠ "$"%char → plain_template s → plain_template (String c s)
  | plain_placeholder name s :
      is_identifier name = true → plain_template s →
      plain_template (placeholder_text name s).

(** The configuration query "returns no items": it failed or printed
    nothing, or its output is no JSON, or it is a JSON object whose item
    list is missing or empty. *)
Definition no_items (json_loads : string → result pyval) (out : option string) : Prop :=
  match if_output out with
  | None => True
  | Some text =>
      json_loads text = Raises JSONDecodeError ∨
      ∃ d, json_loads text = Returns (PDict d) ∧
           (dict_lookup "items" d = None ∨ dict_lookup "items" d = Some (PList []))
  end.

(** The shape the script expects of the configuration list: an object whose
    [items] (when present) is a list of objects; in each, [metadata],
    [annotations] and [labels] (when present) are objects, and the namespace
    and the platform-type annotation (when present) are strings. *)
Definition field (d : list (string * pyval)) (key : string) (default : pyval) : pyval :=
  from_option id default (dict_lookup key d).

Definition is_str (v : pyval) : bool :=
  match v with
  | PStr _ => true
  | _ => false
  end.

Definition is_dict (v : pyval) : bool :=
  match v with
  | PDict _ => true
  | _ => false
  end.

Definition expected_item (item : pyval) : bool :=
  match item with
  | PDict i =>
      match field i "metadata" (PDict []) with
      | PDict m =>
          is_str (field m "namespace" (PStr "")) &&
          is_dict (field m "labels" (PDict [])) &&
          match field m "annotations" (PDict []) with
          | PDict a => is_str (field a "platform.opendatahub.io/type" (PStr ""))
          | _ => false
          end
      | _ => false
      end
  | _ => false
  end.

Definition expected_shape (data : pyval) : bool :=
  match data with
  | PDict d =>
      match field d "items" (PList []) with
      | PList items => forallb expected_item items
      | _ => false
      end
  | _ => false
  end.

(** A descriptor that is either all [None] or fully filled in. *)
Definition filled_or_unknown (d : descriptor) : Prop :=
  d = UNKNOWN ∨
  ∃ kind namespace route_name,
    d = (PStr kind, PStr namespace, PStr route_name) ∧
    (kind = "rhoai" ∨ kind = "odh") ∧ namespace ≠ "" ∧ route_name ≠ "".

(** *** Clusters and decoders given by tables, to run the embedding *)

(** A cluster that answers the listed command lines and knows no other. *)
Fixpoint answers (table : list (list string * completed)) (argv : list string)
  : completed :=
  match table with
  | [] => Completed 1 ""
  | (cmd, answer) :: table' =>
      if bool_decide (argv = cmd) then answer else answers table' argv
  end.

(** The same cluster, except that [cmd] fails. *)
Definition failing (cmd : list string) (run : list string → completed)
  : list string → completed :=
  λ argv, if bool_decide (argv = cmd) then Completed 1 "" else run argv.

(** A decoder that knows the listed documents and rejects any other text. *)
Fixpoint decodes (table : list (string * pyval)) (text : string) : result pyval :=
  match table with
  | [] => Raises JSONDecodeError
  | (doc, v) :: table' =>
      if String.eqb text doc then Returns v else decodes table' text
  end.

(** [s] between double quotes. *)
Definition q (s : string) : string := String DQUOTE s +:+ String DQUOTE "".

(** JSON objects with one and with two members, as text. *)
Definition obj1 (k v : string) : string := "{" +:+ q k +:+ ": " +:+ v +:+ "}".
Definition obj2 (k1 v1 k2 v2 : string) : string :=
  "{" +:+ q k1 +:+ ": " +:+ v1 +:+ ", " +:+ q k2 +:+ ": " +:+ v2 +:+ "}".

(** Example documents, each as the text a query prints and as the value
    [json.loads] makes of it. *)

(** An empty list of items. *)
Definition NO_ITEMS_TEXT : string := obj1 "items" "[]".
Definition NO_ITEMS : pyval := PDict [("items", PList [])].

(** Two dashboard configurations: one labelled [odh-dashboard], then one
    annotated as OpenShift AI. *)
Definition TWO_CONFIGS_TEXT : string :=
  obj1 "items"
    ("[" +:+
     obj1 "metadata"
       (obj2 "namespace" (q "opendatahub")
             "labels" (obj1 "app" (q "odh-dashboard"))) +:+ ", " +:+
     obj1 "metadata"
       (obj2 "namespace" (q "redhat-ods-applications")
             "annotations" (obj1 "platform.opendatahub.io/type" (q "OpenShift AI"))) +:+
     "]").
Definition TWO_CONFIGS : pyval :=
  PDict [("items", PList [
    PDict [("metadata", PDict [
      ("namespace", PStr "opendatahub");
      ("labels", PDict [("app", PStr "odh-dashboard")])])];
    PDict [("metadata", PDict [
      ("namespace", PStr "redhat-ods-applications");
      ("annotations", PDict [("platform.opendatahub.io/type", PStr "OpenShift AI")])])]])].

(** One configuration annotated as OpenShift AI, in a namespace of its own,
    with a label that fits neither variant. *)
Definition ONE_CONFIG_TEXT : string :=
  obj1 "items"
    ("[" +:+
     obj1 "metadata"
       (obj2 "namespace" (q "rhoai-apps")
             "annotations" (obj1 "platform.opendatahub.io/type" (q "Red Hat OpenShift AI"))
        ) +:+
     "]").
Definition ONE_CONFIG : pyval :=
  PDict [("items", PList [
    PDict [("metadata", PDict [
      ("namespace", PStr "rhoai-apps");
      ("annotations",
       PDict [("platform.opendatahub.io/type", PStr "Red Hat OpenShift AI")])])]])].

(** A configuration whose namespace is the number 5. *)
Definition NUMBER_NAMESPACE_TEXT : string :=
  obj1 "items"
    ("[" +:+
     obj1 "metadata"
       (obj2 "namespace" "5" "labels" (obj1 "app" (q "rhods-dashboard"))) +:+
     "]").
Definition NUMBER_NAMESPACE : pyval :=
  PDict [("items", PList [
    PDict [("metadata", PDict [
      ("namespace", PInt 5);
      ("labels", PDict [("app", PStr "rhods-dashboard")])])]])].

(** A console link for OpenShift AI whose address is a lone slash. *)
Definition SLASH_LINK_TEXT : string :=
  obj1 "items"
    ("[" +:+
     obj1 "spec" (obj2 "text" (q "Red Hat OpenShift AI") "href" (q "/")) +:+
     "]").
Definition SLASH_LINK : pyval :=
  PDict [("items", PList [
    PDict [("spec", PDict [
      ("text", PStr "Red Hat OpenShift AI"); ("href", PStr "/")])]])].

(** Two console links: one for OpenShift AI without an address, then one
    for Open Data Hub with an address that ends in a slash. *)
Definition TWO_LINKS_TEXT : string :=
  obj1 "items"
    ("[" +:+
     obj1 "spec" (obj2 "text" (q "Red Hat OpenShift AI") "href" (q "")) +:+ ", " +:+
     obj1 "spec" (obj2 "text" (q "Open Data Hub")
                       "href" (q "https://odh.apps.example.com/")) +:+
     "]").
Definition TWO_LINKS : pyval :=
  PDict [("items", PList [
    PDict [("spec", PDict [
      ("text", PStr "Red Hat OpenShift AI"); ("href", PStr "")])];
    PDict [("spec", PDict [
      ("text", PStr "Open Data Hub");
      ("href", PStr "https://odh.apps.example.com/")])]])].

(** ** [get_cli_tool] and [main]

    [shutil.which] tells whether a tool is on the path.  [main] takes what
    [argparse] made of the command line (the two optional strings) and the
    template file (its text, or nothing when it does not exist).  The
    resolver hands its value map over as it is; [string.Template] and the
    f-string of the legacy route only ever see [str(value)], which is the
    parameter [py_str], the identity on strings.  The map the resolver
    returns holds a string under [REDIRECT_URL] (the override, a stripped
    [href] or the f-string of the route host), so the test ['rh-ai' in
    values['REDIRECT_URL']] is the substring test of [render_template]. *)

Section main.

Variable which : string → bool.
Variable json_loads : string → result pyval.
Variable subprocess_run : list string → completed.
Variable urlparse_hostname : string → result (option string).
Variable py_str : pyval → string.

Definition get_cli_tool : result string :=
  if which "oc" then Returns "oc"
  else if which "kubectl" then Returns "kubectl"
  else Raises (SystemExit 1).

(** What [main] writes to [dashboard-redirect.yaml]. *)
Definition main (template_file : option string)
    (redirect_url route_host : option string) : M string :=
  match template_file with
  | None => sys_exit 1
  | Some template_content =>
      cli ← pure get_cli_tool;
      let variables := discover_variables template_content in
      if bool_decide (variables = []) then sys_exit 0
      else
        values ← auto_discover_values json_loads cli subprocess_run
                   variables redirect_url;
        pure (render_template urlparse_hostname template_content
                (py_str <$> values) route_host)
  end.

End main.

(** ** More vocabulary of the statements *)

(** A template written down piece by piece: text, and placeholders. *)
Inductive segment :=
  | Text (s : string)
  | Placeholder (name : string).

Definition segment_text (seg : segment) : string :=
  match seg with
  | Text s => s
  | Placeholder name => placeholder_text name ""
  end.

Fixpoint template_text (segs : list segment) : string :=
  match segs with
  | [] => ""
  | seg :: segs' => segment_text seg +:+ template_text segs'
  end.

Fixpoint placeholders (segs : list segment) : list string :=
  match segs with
  | [] => []
  | Text _ :: segs' => placeholders segs'
  | Placeholder name :: segs' => name :: placeholders segs'
  end.

(** Text without a delimiter, names that are identifiers. *)
Definition plain_segment (seg : segment) : bool :=
  match seg with
  | Text s => negb (has_char "$" s)
  | Placeholder name => is_identifier name
  end.

(** The template with every placeholder replaced by its value. *)
Fixpoint expand (values : gmap string string) (segs : list segment) : string :=
  match segs with
  | [] => ""
  | Text s :: segs' => s +:+ expand values segs'
  | Placeholder name :: segs' =>
      default "" (values !! name) +:+ expand values segs'
  end.

(** The first placeholder that has no value. *)
Fixpoint first_missing (values : gmap string string) (segs : list segment)
  : option string :=
  match segs with
  | [] => None
  | Text _ :: segs' => first_missing values segs'
  | Placeholder name :: segs' =>
      match values !! name with
      | Some _ => first_missing values segs'
      | None => Some name
      end
  end.

(** Nothing but whitespace. *)
Fixpoint blank (s : string) : bool :=
  match s with
  | "" => true
  | String a s' => isspace a && blank s'
  end.

Fixpoint last_char (s : string) : option Ascii.ascii :=
  match s with
  | "" => None
  | String c "" => Some c
  | String _ s' => last_char s'
  end.

(** Made of the one character only. *)
Fixpoint only_char (c : Ascii.ascii) (s : string) : bool :=
  match s with
  | "" => true
  | String a s' => Ascii.eqb a c && only_char c s'
  end.

(** The console-link query leads to no URL: it failed or printed nothing,
    or its output is no JSON, or no item of it qualifies. *)
Definition no_link (json_loads : string → result pyval) (out : option string) : Prop :=
  match if_output out with
  | None => True
  | Some text =>
      scan_link_output json_loads text = Raises JSONDecodeError ∨
      scan_link_output json_loads text = Returns None
  end.

(** The three names the resolver knows. *)
Definition KNOWN_VARIABLES : list string := ["NAMESPACE"; "ROUTE_NAME"; "REDIRECT_URL"].

(** A command line that only reads: the tool, then [get]. *)
Definition is_get (cli : string) (argv : list string) : Prop :=
  ∃ rest, argv = cli :: "get" :: rest.

(** ** Properties of the extractor *)

Example discover_variables_ex1 :
  discover_variables "a: ${NAMESPACE} b: ${ROUTE_NAME} c: ${NAMESPACE}" =
  ["NAMESPACE"; "ROUTE_NAME"].
Proof. vm_compute. reflexivity. Qed.

Example discover_variables_ex2 :
  discover_variables "${}${b}$${a${c}" = ["a${c"; "b"].
Proof. vm_compute. reflexivity. Qed.


Section extractor.

Implicit Types (content name : string) (variables : gset string).

Lemma elem_of_collect (names : list string) variables name :
  name ∈ foldl (λ variables name, variables ∪ {[ name ]}) variables names ↔
  name ∈ variables ∨ name ∈ names.
Proof.
  revert variables. induction names as [|n names IH]; intros variables; simpl.
  - rewrite elem_of_nil. tauto.
  - rewrite IH, elem_of_union, elem_of_singleton, elem_of_cons. tauto.
Qed.

Lemma elem_of_sorted variables name : name ∈ Py.sorted variables ↔ name ∈ variables.
Proof.
  unfold Py.sorted. rewrite merge_sort_Permutation. apply elem_of_elements.
Qed.

Lemma NoDup_sorted variables : NoDup (Py.sorted variables).
Proof.
  unfold Py.sorted. rewrite merge_sort_Permutation. apply NoDup_elements.
Qed.

Lemma StronglySorted_le_sorted variables :
  StronglySorted String.le (Py.sorted variables).
Proof. apply (StronglySorted_merge_sort String.le). Qed.

Lemma StronglySorted_strict (l : list string) :
  StronglySorted String.le l → NoDup l → StronglySorted (strict String.le) l.
Proof.
  induction 1 as [|x l Hl IH Hx]; intros Hnd; [constructor|].
  apply NoDup_cons in Hnd as [Hnot Hnd]. constructor; [auto|].
  rewrite Forall_forall in *. intros y Hy. split; [auto|].
  intros Hyx. apply Hnot.
  assert (x = y) as -> by (apply (anti_symm String.le); auto).
  done.
Qed.

(** A sorted list without repetition is determined by its elements. *)
Lemma sorted_determined variables (l : list string) :
  StronglySorted String.le l → NoDup l →
  (∀ name, name ∈ l ↔ name ∈ variables) →
  l = Py.sorted variables.
Proof.
  intros Hs Hnd Hiff.
  apply (StronglySorted_unique String.le); auto using StronglySorted_le_sorted.
  apply NoDup_Permutation; auto using NoDup_sorted.
  intros name. rewrite Hiff, elem_of_sorted. done.
Qed.

Lemma elem_of_discover_variables content name :
  name ∈ discover_variables content ↔ name ∈ Re.finditer content.
Proof.
  unfold discover_variables. rewrite elem_of_sorted, elem_of_collect, elem_of_empty.
  tauto.
Qed.

Lemma group_until_brace_spec (s g : string) :
  Re.group_until_brace s = Some g →
  has_char "}" g = false ∧ ∃ rest, s = g +:+ String "}" rest.
Proof.
  revert g. induction s as [|c s IH]; intros g; simpl; [done|].
  destruct (Ascii.eqb_spec c "}") as [->|Hc].
  - intros [= <-]. split; [done|]. by exists s.
  - destruct (Re.group_until_brace s) as [g'|]; simpl; [|done].
    intros [= <-]. destruct (IH g' eq_refl) as [Hg [rest ->]].
    split; [|by exists rest].
    simpl. rewrite Hg. by destruct (Ascii.eqb_spec c "}").
Qed.

Lemma match_here_spec (s g : string) :
  Re.match_here s = Some g →
  g ≠ "" ∧ has_char "}" g = false ∧ ∃ rest, s = placeholder_text g rest.
Proof.
  unfold Re.match_here. destruct s as [|c0 [|c1 s]]; simpl; try done.
  destruct (Ascii.eqb_spec c0 "$") as [->|]; [|done].
  destruct (Ascii.eqb_spec c1 "{") as [->|]; [|done]. simpl.
  destruct (Re.group_until_brace s) as [[|c g']|] eqn:Hg; try done.
  intros [= <-]. apply group_until_brace_spec in Hg as [Hg [rest ->]].
  split; [done|]. split; [done|]. by exists rest.
Qed.

(** Every name the scan reports stands in the text between ["${"] and the
    next ["}"]. *)
Lemma finditer_from_sound (s : string) : ∀ skip name,
  name ∈ Re.finditer_from skip s →
  name ≠ "" ∧ has_char "}" name = false ∧
  ∃ before after, s = before +:+ placeholder_text name after.
Proof.
  induction s as [|c s IH]; intros skip name; simpl.
  { by intros ?%elem_of_nil. }
  assert (∀ k, name ∈ Re.finditer_from k s →
    name ≠ "" ∧ has_char "}" name = false ∧
    ∃ before after, String c s = before +:+ placeholder_text name after) as Htail.
  { intros k Hk. destruct (IH k name Hk) as (? & ? & before & after & ->).
    do 2 (split; [done|]). by exists (String c before), after. }
  destruct skip as [|k]; [|by apply Htail].
  destruct (Re.match_here (String c s)) as [g|] eqn:Hm; [|by apply Htail].
  intros [->|Hin]%elem_of_cons; [|by eapply Htail].
  apply match_here_spec in Hm as (? & ? & rest & ->).
  do 2 (split; [done|]). by exists "", rest.
Qed.

End extractor.



(** ** Substitution on plain templates *)

Section strings.

Implicit Types (s t rest name : string) (c : Ascii.ascii).

Lemma app_String c s t : String c s +:+ t = String c (s +:+ t).
Proof. reflexivity. Qed.

Lemma app_empty_l t : "" +:+ t = t.
Proof. reflexivity. Qed.

Lemma app_empty_r s : s +:+ "" = s.
Proof. induction s as [|c s IH]; [done|]. by rewrite app_String, IH. Qed.

Lemma app_assoc s t rest : (s +:+ t) +:+ rest = s +:+ (t +:+ rest).
Proof. induction s as [|c s IH]; [done|]. by rewrite !app_String, IH. Qed.

Lemma has_char_app c s t : has_char c (s +:+ t) = has_char c s || has_char c t.
Proof.
  induction s as [|a s IH]; [done|].
  rewrite app_String. simpl. rewrite IH. by rewrite orb_assoc.
Qed.

Lemma drop_app_length s t : drop (String.length s) (s +:+ t) = t.
Proof. induction s as [|c s IH]; simpl; [by destruct t|done]. Qed.

Lemma finditer_from_String skip c s :
  Re.finditer_from skip (String c s) =
  match skip with
  | S k => Re.finditer_from k s
  | O =>
      match Re.match_here (String c s) with
      | Some g => g :: Re.finditer_from (2 + String.length g) s
      | None => Re.finditer_from 0 s
      end
  end.
Proof. reflexivity. Qed.

Lemma match_here_not_dollar c s :
  Ascii.eqb c "$" = false → Re.match_here (String c s) = None.
Proof. intros Hc. unfold Re.match_here. destruct s; [done|]. by rewrite Hc. Qed.

Lemma finditer_from_no_dollar s : ∀ skip,
  has_char "$" s = false → Re.finditer_from skip s = [].
Proof.
  induction s as [|c s IH]; intros skip Hs; [done|].
  rewrite finditer_from_String. simpl in Hs.
  apply orb_false_elim in Hs as [Hc Hs].
  destruct skip as [|k]; [|by apply IH].
  rewrite match_here_not_dollar by done. by apply IH.
Qed.

End strings.

Section identifiers.

Import Template.
Implicit Types (s rest name : string) (c : Ascii.ascii).

Lemma is_id_char_not_brace c : is_id_char c = true → Ascii.eqb c "}" = false.
Proof.
  intros Hc. destruct (Ascii.eqb_spec c "}") as [->|]; [|done].
  by vm_compute in Hc.
Qed.

Lemma is_id_start_char c : is_id_start c = true → is_id_char c = true.
Proof. unfold is_id_char. by intros ->. Qed.

Lemma id_chars_all s : String.eqb (id_chars s) s = true → ∀ rest,
  id_chars (s +:+ String "}" rest) = s ∧
  Re.group_until_brace (s +:+ String "}" rest) = Some s ∧
  has_char "}" s = false.
Proof.
  induction s as [|c s IH]; intros Hs rest; [done|].
  rewrite app_String. simpl in *.
  destruct (is_id_char c) eqn:Hc; [|done].
  simpl in Hs. rewrite Ascii.eqb_refl in Hs.
  destruct (IH Hs rest) as (-> & -> & ->).
  by rewrite (is_id_char_not_brace c Hc).
Qed.

Lemma identifier_at_placeholder name rest :
  is_identifier name = true →
  identifier_at (name +:+ String "}" rest) = Some name ∧
  Re.group_until_brace (name +:+ String "}" rest) = Some name ∧
  name ≠ "".
Proof.
  destruct name as [|c s]; [done|]. unfold is_identifier.
  intros [Hc Hs]%andb_prop. rewrite app_String. unfold identifier_at.
  rewrite Hc. destruct (id_chars_all s Hs rest) as (-> & Hg & _).
  split; [done|]. split; [|done]. simpl.
  by rewrite (is_id_char_not_brace c (is_id_start_char c Hc)), Hg.
Qed.

Lemma after_delimiter_placeholder name rest :
  is_identifier name = true →
  after_delimiter (String "{" (name +:+ String "}" rest)) = Braced name.
Proof.
  intros Hname. destruct (identifier_at_placeholder name rest Hname) as (Hid & _ & _).
  unfold after_delimiter.
  replace (identifier_at (String "{" (name +:+ String "}" rest))) with (@None string)
    by reflexivity.
  replace (Ascii.eqb "{" "$") with false by reflexivity.
  replace (Ascii.eqb "{" "{") with true by reflexivity.
  rewrite Hid, drop_app_length. reflexivity.
Qed.

Lemma substitute_from_skip mapping name rest :
  substitute_from mapping (S (String.length name)) (name +:+ String "}" rest) =
  substitute_from mapping 0 rest.
Proof. induction name as [|c s IH]; [by destruct rest|]. by rewrite app_String. Qed.

Lemma finditer_from_skip name rest :
  Re.finditer_from (S (String.length name)) (name +:+ String "}" rest) =
  Re.finditer_from 0 rest.
Proof. induction name as [|c s IH]; [by destruct rest|]. by rewrite app_String. Qed.

Lemma finditer_placeholder name rest :
  is_identifier name = true →
  Re.finditer (placeholder_text name rest) = name :: Re.finditer rest.
Proof.
  intros Hname. destruct (identifier_at_placeholder name rest Hname) as (_ & Hg & Hne).
  unfold Re.finditer, placeholder_text. rewrite finditer_from_String.
  replace (Re.match_here (String "$" (String "{" (name +:+ String "}" rest))))
    with (Some name).
  - f_equal. rewrite finditer_from_String. apply finditer_from_skip.
  - unfold Re.match_here. simpl. rewrite Hg. by destruct name.
Qed.

Lemma finditer_plain_char c s :
  c ≠ "$"%char → Re.finditer (String c s) = Re.finditer s.
Proof.
  intros Hc. unfold Re.finditer. rewrite finditer_from_String.
  rewrite match_here_not_dollar; [done|]. by destruct (Ascii.eqb_spec c "$").
Qed.

(** On a plain template whose placeholders all have a value, substitution
    returns, and what it returns has no delimiter left when the values have
    none. *)
Lemma substitute_plain (mapping : gmap string string) s :
  plain_template s →
  (∀ name, name ∈ Re.finditer s → is_Some (mapping !! name)) →
  (∀ name v, mapping !! name = Some v → has_char "$" v = false) →
  ∃ rendered, substitute s mapping = Returns rendered ∧
              has_char "$" rendered = false.
Proof.
  intros Hplain Hkeys Hvalues. unfold substitute.
  induction Hplain as [|c s Hc _ IH|name s Hname _ IH].
  - by exists "".
  - rewrite finditer_plain_char in Hkeys by done.
    destruct (IH Hkeys) as (r & Hr & Hfree). exists (String c r).
    simpl. destruct (Ascii.eqb_spec c "$") as [|_]; [done|].
    rewrite Hr. split; [done|]. simpl. rewrite Hfree.
    by destruct (Ascii.eqb_spec c "$").
  - rewrite finditer_placeholder in Hkeys by done.
    destruct (IH (λ n Hn, Hkeys n (list_elem_of_further _ _ _ Hn)))
      as (r & Hr & Hfree).
    destruct (Hkeys name (list_elem_of_here _ _)) as [v Hv].
    exists (v +:+ r). unfold placeholder_text.
    change (substitute_from mapping 0 (String "$" (String "{" (name +:+ String "}" s))))
      with (match after_delimiter (String "{" (name +:+ String "}" s)) with
            | Escaped =>
                String "$" <$> substitute_from mapping 1 (String "{" (name +:+ String "}" s))
            | Named n =>
                v ← getitem mapping n;
                String.app v <$>
                  substitute_from mapping (String.length n)
                    (String "{" (name +:+ String "}" s))
            | Braced n =>
                v ← getitem mapping n;
                String.app v <$>
                  substitute_from mapping (2 + String.length n)
                    (String "{" (name +:+ String "}" s))
            | Invalid => Raises ValueError
            end).
    rewrite after_delimiter_placeholder by done.
    unfold getitem. rewrite Hv. simpl.
    rewrite substitute_from_skip, Hr. split; [done|].
    by rewrite has_char_app, (Hvalues name v Hv), Hfree.
Qed.

End identifiers.

Section round_trip.

Implicit Types (content : string) (values : gmap string string).

Lemma substitute_values_Returns content values rendered :
  Template.substitute content values = Returns rendered →
  substitute_values content values = Returns rendered.
Proof. unfold substitute_values. by intros ->. Qed.

(** Without a host override and without the legacy route, what is written
    is the substituted text. *)
Lemma render_template_plain urlparse_hostname content values rendered :
  substitute_values content values = Returns rendered →
  match values !! "REDIRECT_URL" with
  | Some redirect_url => contains "rh-ai" redirect_url = false
  | None => True
  end →
  render_template urlparse_hostname content values None = Returns rendered.
Proof.
  intros Hsub Hurl. unfold render_template. rewrite Hsub. simpl.
  unfold append_legacy_route.
  destruct (values !! "REDIRECT_URL") as [url|]; [|done]. by rewrite Hurl.
Qed.

End round_trip.

(** C1, as amended.  For every template made of text without ["$"] and of
    [${identifier}] placeholders, and every value map whose key set is
    exactly the set of names [discover_variables] finds and whose values
    contain no ["$"]: substitution succeeds and the substituted text has no
    [${...}] marker (indeed no ["$"]) left; it is the text written whenever
    no host override is given and no legacy route is due. *)
Theorem render_round_trip (content : string) (values : gmap string string) :
  plain_template content →
  dom values = list_to_set (discover_variables content) →
  (∀ name v, values !! name = Some v → has_char "$" v = false) →
  ∃ rendered,
    substitute_values content values = Returns rendered ∧
    Re.finditer rendered = [] ∧
    discover_variables rendered = [] ∧
    has_char "$" rendered = false ∧
    ∀ urlparse_hostname,
      match values !! "REDIRECT_URL" with
      | Some redirect_url => contains "rh-ai" redirect_url = false
      | None => True
      end →
      render_template urlparse_hostname content values None = Returns rendered.
Proof.
  intros Hplain Hdom Hvalues.
  destruct (substitute_plain values content Hplain) as (rendered & Hr & Hfree).
  - intros name Hname. apply elem_of_dom. rewrite Hdom.
    by apply elem_of_list_to_set, elem_of_discover_variables.
  - done.
  - exists rendered.
    assert (Re.finditer rendered = []) as Hnone
      by by apply finditer_from_no_dollar.
    split; [by apply substitute_values_Returns|]. split; [done|].
    split; [by unfold discover_variables; rewrite Hnone|]. split; [done|].
    intros u Hurl. apply render_template_plain; [|done].
    by apply substitute_values_Returns.
Qed.

Ltac plain_template :=
  repeat first
    [ apply plain_end
    | apply plain_char; [by intros [=]|]
    | match goal with
      | |- plain_template (String "$" (String "{" ?s)) =>
          match eval vm_compute in (Re.group_until_brace s) with
          | Some ?name =>
              apply (plain_placeholder name
                       (drop (S (String.length name)) s)); [reflexivity|]
          end
      end; simpl drop ].

Lemma render_round_trip_witness :
  ∃ rendered,
    substitute_values "${NAMESPACE}/${ROUTE_NAME}"
      (<["NAMESPACE" := "opendatahub"]> {["ROUTE_NAME" := "odh-dashboard"]})
    = Returns rendered ∧
    Re.finditer rendered = [].
Proof.
  destruct (render_round_trip "${NAMESPACE}/${ROUTE_NAME}"
              (<["NAMESPACE" := "opendatahub"]> {["ROUTE_NAME" := "odh-dashboard"]}))
    as (rendered & Hsub & Hnone & _).
  - plain_template.
  - vm_compute. reflexivity.
  - intros name v.
    rewrite lookup_insert. case_decide; [by intros [= <-]|].
    rewrite lookup_singleton. case_decide; [by intros [= <-]|done].
  - by exists rendered.
Defined.

(** C1, as stated, fails: an escaped delimiter puts a marker into the output
    that the extractor read as a placeholder; a placeholder without braces
    is unknown to the extractor and stops the run; a name the extractor
    accepts but [string.Template] does not raises [ValueError]. *)
Lemma render_round_trip_counterexample :
  (dom ({["x" := "v"]} : gmap string string) = list_to_set (discover_variables "$${x}") ∧
   render_template Url.hostname "$${x}" {["x" := "v"]} None = Returns "${x}" ∧
   Re.finditer "${x}" = ["x"]) ∧
  (dom (∅ : gmap string string) = list_to_set (discover_variables "$HOST") ∧
   render_template Url.hostname "$HOST" ∅ None = Raises (SystemExit 1)) ∧
  (dom ({["a b" := "v"]} : gmap string string) = list_to_set (discover_variables "${a b}") ∧
   render_template Url.hostname "${a b}" {["a b" := "v"]} None = Raises ValueError).
Proof. vm_compute. repeat split; reflexivity. Qed.

(** ** The host injection touches the first marker only *)

Section injection.

Implicit Types (s pre post new : string).

Lemma prefix_app_self s post : String.prefix s (s +:+ post) = true.
Proof.
  induction s as [|c s IH]; [by destruct post|].
  rewrite app_String. simpl. by destruct (Ascii.ascii_dec c c).
Qed.

Ltac compare_chars :=
  repeat match goal with
    | |- context [Ascii.ascii_dec ?a ?b] =>
        destruct (Ascii.ascii_dec a b) as [?|?]; [subst; try discriminate|]
    | H : context [Ascii.ascii_dec ?a ?b] |- _ =>
        destruct (Ascii.ascii_dec a b) as [?|?]; [subst; try discriminate|]
    end; try done.

(** The marker begins with its only ["s"], so an occurrence cannot begin
    inside another one: one that begins in front of [SPEC_PORT] ends in
    front of it. *)
Lemma prefix_SPEC_PORT_inside c pre post :
  String.prefix SPEC_PORT (String c pre +:+ SPEC_PORT +:+ post) = true →
  String.prefix SPEC_PORT (String c pre) = true.
Proof.
  let m := eval vm_compute in SPEC_PORT in change SPEC_PORT with m.
  do 13 (destruct pre as [|? pre];
         [rewrite ?app_String, ?app_empty_l; simpl; intros; compare_chars|]).
  rewrite !app_String. simpl. intros. compare_chars.
Qed.

Lemma contains_String sub c s :
  contains sub (String c s) = String.prefix sub (String c s) || contains sub s.
Proof. reflexivity. Qed.

Lemma replace_first_unfold old new s :
  replace_first old new s =
  if String.prefix old s then new +:+ drop (String.length old) s
  else match s with
       | "" => ""
       | String a s' => String a (replace_first old new s')
       end.
Proof. by destruct s. Qed.

Lemma replace_first_SPEC_PORT pre post new :
  contains SPEC_PORT pre = false →
  replace_first SPEC_PORT new (pre +:+ SPEC_PORT +:+ post) = pre +:+ new +:+ post.
Proof.
  induction pre as [|c pre IH]; intros Hpre; rewrite replace_first_unfold.
  - by rewrite !app_empty_l, prefix_app_self, drop_app_length.
  - rewrite contains_String in Hpre.
    apply orb_false_elim in Hpre as [Hhere Hlater].
    destruct (String.prefix SPEC_PORT (String c pre +:+ SPEC_PORT +:+ post))
      eqn:Hp.
    + apply (prefix_SPEC_PORT_inside c pre post) in Hp. congruence.
    + rewrite !app_String. by rewrite IH.
Qed.

(** The legacy route is text put behind whatever was rendered. *)
Lemma append_legacy_route_tail urlparse_hostname (values : gmap string string) :
  ∃ tail : result string,
    ∀ rendered, append_legacy_route urlparse_hostname rendered values =
                String.app rendered <$> tail.
Proof.
  unfold append_legacy_route.
  destruct (values !! "REDIRECT_URL") as [url|];
    [|by exists (Returns ""); intros r; simpl; rewrite app_empty_r].
  destruct (contains "rh-ai" url);
    [|by exists (Returns ""); intros r; simpl; rewrite app_empty_r].
  destruct (urlparse_hostname url) as [hostname|e]; [|by exists (Raises e)].
  destruct (Template.getitem values "NAMESPACE") as [namespace|e];
    [|by exists (Raises e)].
  by exists (Returns (dsg_route namespace (host_line_of (legacy_host_of hostname)))).
Qed.

End injection.



(** ** The legacy route *)




(** ** The cluster queries, step by step *)

Section queries.

Context (json_loads : string → result pyval) (cli : string)
        (subprocess_run : list string → completed).

Implicit Types (log : command_log).

Lemma subscription_probes_eq log :
  subscription_probes cli subprocess_run log =
  if nonempty (run_command_value cli subprocess_run
                 (GET_SUBSCRIPTION "rhods-operator")) then
    (Returns (RHOAI (PStr "redhat-ods-applications")), log ++ [RHOAI_QUERY cli])
  else if nonempty (run_command_value cli subprocess_run
                      (GET_SUBSCRIPTION "opendatahub-operator")) then
    (Returns (ODH (PStr "opendatahub")), log ++ [RHOAI_QUERY cli; ODH_QUERY cli])
  else (Returns UNKNOWN, log ++ [RHOAI_QUERY cli; ODH_QUERY cli]).
Proof.
  unfold subscription_probes, run_command, mbind, M_bind, mret, M_ret.
  destruct (nonempty (run_command_value _ _ (GET_SUBSCRIPTION "rhods-operator")));
    [done|].
  rewrite <-(assoc_L (++)). simpl.
  by destruct (nonempty (run_command_value _ _ (GET_SUBSCRIPTION "opendatahub-operator"))).
Qed.

Lemma detect_platform_eq log :
  detect_platform json_loads cli subprocess_run log =
  match if_output (run_command_value cli subprocess_run GET_ODHDASHBOARDCONFIG) with
  | Some text =>
      match scan_config_output json_loads text with
      | Returns (Some d) => (Returns d, log ++ [CONFIG_QUERY cli])
      | Returns None | Raises JSONDecodeError =>
          subscription_probes cli subprocess_run (log ++ [CONFIG_QUERY cli])
      | Raises e => (Raises e, log ++ [CONFIG_QUERY cli])
      end
  | None => subscription_probes cli subprocess_run (log ++ [CONFIG_QUERY cli])
  end.
Proof.
  unfold detect_platform, run_command, except_JSONDecodeError, pure,
    mbind, M_bind, mret, M_ret.
  destruct (if_output (run_command_value _ _ GET_ODHDASHBOARDCONFIG)) as [text|];
    [|done].
  by destruct (scan_config_output json_loads text) as [[d|]|[]].
Qed.

Lemma discover_redirect_url_eq log :
  discover_redirect_url json_loads cli subprocess_run log =
  let fallback :=
    match if_output (run_command_value cli subprocess_run GET_ROUTE) with
    | Some host =>
        (Returns (PStr ("https://" +:+ host)),
         log ++ [CONSOLELINK_QUERY cli; ROUTE_QUERY cli])
    | None => (Returns PNone, log ++ [CONSOLELINK_QUERY cli; ROUTE_QUERY cli])
    end in
  match if_output (run_command_value cli subprocess_run GET_CONSOLELINK) with
  | Some text =>
      match scan_link_output json_loads text with
      | Returns (Some url) => (Returns url, log ++ [CONSOLELINK_QUERY cli])
      | Returns None | Raises JSONDecodeError => fallback
      | Raises e => (Raises e, log ++ [CONSOLELINK_QUERY cli])
      end
  | None => fallback
  end.
Proof.
  unfold discover_redirect_url, run_command, except_JSONDecodeError,
    pure, mbind, M_bind, mret, M_ret. simpl.
  destruct (if_output (run_command_value _ _ GET_CONSOLELINK)) as [text|].
  - destruct (scan_link_output json_loads text) as [[url|]|[]]; try done;
      rewrite <-(assoc_L (++)); simpl;
      by destruct (if_output (run_command_value _ _ GET_ROUTE)).
  - rewrite <-(assoc_L (++)); simpl.
    by destruct (if_output (run_command_value _ _ GET_ROUTE)).
Qed.

(** [detect_platform] only ever asks its own three questions. *)
Lemma detect_platform_queries log log' r :
  detect_platform json_loads cli subprocess_run log = (r, log') →
  ∃ issued, log' = log ++ issued ∧
            issued ⊆ [CONFIG_QUERY cli; RHOAI_QUERY cli; ODH_QUERY cli].
Proof.
  rewrite detect_platform_eq.
  assert (∀ r', subscription_probes cli subprocess_run (log ++ [CONFIG_QUERY cli])
                = (r', log') →
    ∃ issued, log' = log ++ issued ∧
              issued ⊆ [CONFIG_QUERY cli; RHOAI_QUERY cli; ODH_QUERY cli])
    as Hprobes.
  { intros r'. rewrite subscription_probes_eq.
    repeat case_match; intros [= _ <-]; rewrite <-(assoc_L (++));
      eexists; (split; [reflexivity|]); simpl; intros x;
      rewrite ?elem_of_cons, ?elem_of_nil; tauto. }
  repeat case_match; try (by apply Hprobes);
    intros [= _ <-]; exists [CONFIG_QUERY cli]; (split; [done|]); intros x;
    rewrite ?elem_of_cons, ?elem_of_nil; tauto.
Qed.

(** [discover_redirect_url] begins by asking for the console links. *)
Lemma discover_redirect_url_queries log log' r :
  discover_redirect_url json_loads cli subprocess_run log = (r, log') →
  ∃ issued, log' = log ++ CONSOLELINK_QUERY cli :: issued.
Proof.
  rewrite discover_redirect_url_eq. simpl.
  repeat case_match; intros [= _ <-]; by eexists.
Qed.

End queries.

(** ** Platform detection *)

Lemma run_command_value_failing cli subprocess_run (cmd args : list string) :
  cmd ≠ cli :: args →
  run_command_value cli (failing cmd subprocess_run) args =
  run_command_value cli subprocess_run args.
Proof.
  intros Hne. unfold run_command_value, failing.
  rewrite bool_decide_eq_false_2; [done|]. by intros <-.
Qed.

Lemma subscription_probes_failing cli subprocess_run (log : command_log) :
  subscription_probes cli (failing (CONFIG_QUERY cli) subprocess_run) log =
  subscription_probes cli subprocess_run log.
Proof.
  rewrite !subscription_probes_eq.
  by rewrite !run_command_value_failing by (intros [=]).
Qed.

(** C2, as amended.  When the output of the platform-configuration query is
    not JSON ([json.loads] raises [JSONDecodeError]), [detect_platform] does
    not abort: it goes on with the subscription probes, and returns what it
    returns on a cluster where that query fails. *)
Theorem undecodable_config_falls_through
    (json_loads : string → result pyval) (cli : string)
    (subprocess_run : list string → completed) (text : string) (log : command_log) :
  if_output (run_command_value cli subprocess_run GET_ODHDASHBOARDCONFIG) = Some text →
  json_loads text = Raises JSONDecodeError →
  detect_platform json_loads cli subprocess_run log =
    subscription_probes cli subprocess_run (log ++ [CONFIG_QUERY cli]) ∧
  detect_platform json_loads cli subprocess_run log =
    detect_platform json_loads cli (failing (CONFIG_QUERY cli) subprocess_run) log ∧
  ∃ d issued,
    detect_platform json_loads cli subprocess_run log =
      (Returns d, log ++ CONFIG_QUERY cli :: RHOAI_QUERY cli :: issued).
Proof.
  intros Hout Hjson.
  assert (detect_platform json_loads cli subprocess_run log =
            subscription_probes cli subprocess_run (log ++ [CONFIG_QUERY cli])) as Heq.
  { rewrite detect_platform_eq, Hout. unfold scan_config_output.
    by rewrite Hjson. }
  split; [done|]. split.
  - rewrite Heq, (detect_platform_eq _ _ (failing _ _)).
    unfold run_command_value at 1, failing at 1.
    rewrite bool_decide_eq_true_2 by done. simpl.
    by rewrite subscription_probes_failing.
  - rewrite Heq, subscription_probes_eq.
    repeat case_match; rewrite <-(assoc_L (++)); by do 2 eexists.
Qed.

Lemma undecodable_config_falls_through_witness :
  detect_platform (decodes []) "oc"
    (answers [(CONFIG_QUERY "oc", Completed 0 "<html>Unauthorized</html>");
              (ODH_QUERY "oc", Completed 0 "opendatahub-operator")]) [] =
  (Returns (ODH (PStr "opendatahub")),
   [CONFIG_QUERY "oc"; RHOAI_QUERY "oc"; ODH_QUERY "oc"]).
Proof.
  destruct (undecodable_config_falls_through (decodes []) "oc"
              (answers [(CONFIG_QUERY "oc", Completed 0 "<html>Unauthorized</html>");
                        (ODH_QUERY "oc", Completed 0 "opendatahub-operator")])
              "<html>Unauthorized</html>" [])
    as (-> & _ & _).
  - vm_compute. reflexivity.
  - vm_compute. reflexivity.
  - vm_compute. reflexivity.
Defined.

(** C2, as stated, fails for output that is JSON of another shape than the
    script expects: a top-level array has no [.get], and a [null] item list
    cannot be iterated.  Neither exception is caught. *)
Lemma undecodable_config_counterexample :
  detect_platform (decodes [("[]", PList [])]) "oc"
    (answers [(CONFIG_QUERY "oc", Completed 0 "[]")]) [] =
    (Raises AttributeError, [CONFIG_QUERY "oc"]) ∧
  detect_platform
    (decodes [(obj1 "items" "null", PDict [("items", PNone)])]) "oc"
    (answers [(CONFIG_QUERY "oc", Completed 0 (obj1 "items" "null"))]) [] =
    (Raises TypeError, [CONFIG_QUERY "oc"]).
Proof. split; vm_compute; reflexivity. Qed.

(** C3, as amended.  When the platform-configuration query returns no items,
    the variant-A ([rhods-operator]) subscription query returns nothing, and
    the variant-B ([opendatahub-operator]) subscription query returns a
    non-empty result, [detect_platform] returns the variant-B descriptor
    [('odh', 'opendatahub', 'odh-dashboard')], having made the three
    queries. *)
Theorem odh_subscription_fallback
    (json_loads : string → result pyval) (cli : string)
    (subprocess_run : list string → completed) (log : command_log) :
  no_items json_loads (run_command_value cli subprocess_run GET_ODHDASHBOARDCONFIG) →
  nonempty (run_command_value cli subprocess_run (GET_SUBSCRIPTION "rhods-operator"))
    = false →
  nonempty (run_command_value cli subprocess_run (GET_SUBSCRIPTION "opendatahub-operator"))
    = true →
  detect_platform json_loads cli subprocess_run log =
    (Returns (PStr "odh", PStr "opendatahub", PStr "odh-dashboard"),
     log ++ [CONFIG_QUERY cli; RHOAI_QUERY cli; ODH_QUERY cli]).
Proof.
  intros Hnone Hrhoai Hodh.
  assert (subscription_probes cli subprocess_run (log ++ [CONFIG_QUERY cli]) =
          (Returns (PStr "odh", PStr "opendatahub", PStr "odh-dashboard"),
           log ++ [CONFIG_QUERY cli; RHOAI_QUERY cli; ODH_QUERY cli])) as Hprobes.
  { rewrite subscription_probes_eq, Hrhoai, Hodh. by rewrite <-(assoc_L (++)). }
  rewrite detect_platform_eq. unfold no_items in Hnone.
  destruct (if_output _) as [text|]; [|done].
  unfold scan_config_output.
  destruct Hnone as [->|(d & -> & Hitems)]; [done|].
  simpl. by destruct Hitems as [->| ->].
Qed.

Lemma odh_subscription_fallback_witness :
  detect_platform (decodes [(NO_ITEMS_TEXT, NO_ITEMS)]) "kubectl"
    (answers [(CONFIG_QUERY "kubectl", Completed 0 NO_ITEMS_TEXT);
              (ODH_QUERY "kubectl", Completed 0 "opendatahub-operator")]) [] =
  (Returns (PStr "odh", PStr "opendatahub", PStr "odh-dashboard"),
   [CONFIG_QUERY "kubectl"; RHOAI_QUERY "kubectl"; ODH_QUERY "kubectl"]).
Proof.
  apply (odh_subscription_fallback (decodes [(NO_ITEMS_TEXT, NO_ITEMS)]) "kubectl"
           (answers [(CONFIG_QUERY "kubectl", Completed 0 NO_ITEMS_TEXT);
                     (ODH_QUERY "kubectl", Completed 0 "opendatahub-operator")]) []).
  - right. exists [("items", PList [])]. split; [vm_compute; reflexivity|].
    right. reflexivity.
  - vm_compute. reflexivity.
  - vm_compute. reflexivity.
Defined.

(** C3, as stated, fails on a cluster that has both subscriptions: the
    variant-A probe comes first and wins. *)
Lemma odh_subscription_counterexample :
  no_items (decodes [(NO_ITEMS_TEXT, NO_ITEMS)])
    (run_command_value "oc"
       (answers [(CONFIG_QUERY "oc", Completed 0 NO_ITEMS_TEXT);
                 (RHOAI_QUERY "oc", Completed 0 "rhods-operator");
                 (ODH_QUERY "oc", Completed 0 "opendatahub-operator")])
       GET_ODHDASHBOARDCONFIG) ∧
  nonempty
    (run_command_value "oc"
       (answers [(CONFIG_QUERY "oc", Completed 0 NO_ITEMS_TEXT);
                 (RHOAI_QUERY "oc", Completed 0 "rhods-operator");
                 (ODH_QUERY "oc", Completed 0 "opendatahub-operator")])
       (GET_SUBSCRIPTION "opendatahub-operator")) = true ∧
  detect_platform (decodes [(NO_ITEMS_TEXT, NO_ITEMS)]) "oc"
    (answers [(CONFIG_QUERY "oc", Completed 0 NO_ITEMS_TEXT);
              (RHOAI_QUERY "oc", Completed 0 "rhods-operator");
              (ODH_QUERY "oc", Completed 0 "opendatahub-operator")]) [] =
  (Returns (PStr "rhoai", PStr "redhat-ods-applications", PStr "rhods-dashboard"),
   [CONFIG_QUERY "oc"; RHOAI_QUERY "oc"]).
Proof.
  split; [|split; vm_compute; reflexivity].
  right. exists [("items", PList [])]. split; [vm_compute; reflexivity|].
  right. reflexivity.
Qed.

Section configs.

Implicit Types (item : pyval) (items earlier later : list pyval).

(** Items that match no rule are passed over. *)
Lemma scan_configs_app earlier later :
  Forall (λ item, classify_config item = Returns None) earlier →
  scan_configs (earlier ++ later) = scan_configs later.
Proof.
  induction 1 as [|item earlier Hitem _ IH]; [done|].
  simpl. by rewrite Hitem.
Qed.

Lemma classify_config_marker item (annotation : string) (namespace app_label : pyval) :
  config_fields item = Returns (PStr annotation, namespace, app_label) →
  contains "OpenShift AI" annotation = true →
  classify_config item =
    Returns (Some (RHOAI (or_else namespace (PStr "redhat-ods-applications")))).
Proof.
  intros Hfields Hmarker. unfold classify_config. rewrite Hfields. simpl.
  by rewrite Hmarker.
Qed.

Lemma or_else_filled (namespace default : string) :
  default ≠ "" →
  ∃ ns, or_else (PStr namespace) (PStr default) = PStr ns ∧ ns ≠ "".
Proof.
  intros Hdefault. unfold or_else. simpl.
  destruct (String.eqb_spec namespace ""); simpl; eauto.
Qed.

Lemma filled_RHOAI (namespace : string) :
  namespace ≠ "" → filled_or_unknown (RHOAI (PStr namespace)).
Proof. intros ?. right. exists "rhoai", namespace, "rhods-dashboard". eauto. Qed.

Lemma filled_ODH (namespace : string) :
  namespace ≠ "" → filled_or_unknown (ODH (PStr namespace)).
Proof. intros ?. right. exists "odh", namespace, "odh-dashboard". eauto. Qed.

(** On an item of the expected shape the loop body does not raise, and a
    descriptor it returns is filled in. *)
Lemma classify_config_expected item :
  expected_item item = true →
  ∃ r, classify_config item = Returns r ∧
       match r with
       | Some d => filled_or_unknown d
       | None => True
       end.
Proof.
  unfold expected_item, classify_config, config_fields, get, field.
  destruct item as [| | | | | |i]; try done. simpl.
  destruct (from_option id (PDict []) (dict_lookup "metadata" i))
    as [| | | | | |m]; try done. simpl.
  destruct (from_option id (PStr "") (dict_lookup "namespace" m))
    as [| | | |namespace| |]; try done.
  destruct (from_option id (PDict []) (dict_lookup "labels" m))
    as [| | | | | |labels]; try done.
  destruct (from_option id (PDict []) (dict_lookup "annotations" m))
    as [| | | | | |a]; try done. simpl.
  destruct (from_option id (PStr "") (dict_lookup "platform.opendatahub.io/type" a))
    as [| | | |annotation| |]; try done.
  intros _. simpl.
  destruct (or_else_filled namespace "redhat-ods-applications") as (ns1 & -> & ?);
    [done|].
  destruct (or_else_filled namespace "opendatahub") as (ns2 & -> & ?); [done|].
  destruct (contains "OpenShift AI" annotation ||
            eq_str (from_option id (PStr "") (dict_lookup "app" labels))
              "rhods-dashboard").
  { eexists. split; [done|]. by apply filled_RHOAI. }
  destruct (eq_str (from_option id (PStr "") (dict_lookup "app" labels))
              "odh-dashboard").
  { eexists. split; [done|]. by apply filled_ODH. }
  by exists None.
Qed.

Lemma scan_configs_expected items :
  forallb expected_item items = true →
  ∃ r, scan_configs items = Returns r ∧
       match r with
       | Some d => filled_or_unknown d
       | None => True
       end.
Proof.
  induction items as [|item items IH]; simpl; [by exists None|].
  intros [Hitem Hitems]%andb_prop.
  destruct (classify_config_expected item Hitem) as ([d|] & -> & Hd); simpl.
  - by exists (Some d).
  - by apply IH.
Qed.

End configs.

(** C4, as amended.  When the platform-configuration query returns an item
    whose platform-type annotation is a string containing ['OpenShift AI'],
    and every item before it matches no rule, [detect_platform] returns
    ['rhoai'], that item's namespace (the default
    ['redhat-ods-applications'] when the namespace is empty), and
    ['rhods-dashboard'], whatever the item's app label is; no subscription
    is looked up. *)
Theorem annotated_config_is_rhoai
    (json_loads : string → result pyval) (cli : string)
    (subprocess_run : list string → completed) (log : command_log)
    (text : string) (d : list (string * pyval))
    (earlier later : list pyval) (item : pyval)
    (annotation : string) (namespace app_label : pyval) :
  if_output (run_command_value cli subprocess_run GET_ODHDASHBOARDCONFIG) = Some text →
  json_loads text = Returns (PDict d) →
  dict_lookup "items" d = Some (PList (earlier ++ item :: later)) →
  Forall (λ item, classify_config item = Returns None) earlier →
  config_fields item = Returns (PStr annotation, namespace, app_label) →
  contains "OpenShift AI" annotation = true →
  detect_platform json_loads cli subprocess_run log =
    (Returns (PStr "rhoai",
              (if truthy namespace then namespace else PStr "redhat-ods-applications"),
              PStr "rhods-dashboard"),
     log ++ [CONFIG_QUERY cli]).
Proof.
  intros Hout Hjson Hitems Hearlier Hfields Hmarker.
  rewrite detect_platform_eq, Hout. unfold scan_config_output.
  rewrite Hjson. simpl. rewrite Hitems. simpl.
  rewrite scan_configs_app by done. simpl.
  by rewrite (classify_config_marker item annotation namespace app_label).
Qed.

Lemma annotated_config_is_rhoai_witness :
  detect_platform (decodes [(ONE_CONFIG_TEXT, ONE_CONFIG)]) "oc"
    (answers [(CONFIG_QUERY "oc", Completed 0 ONE_CONFIG_TEXT)]) [] =
  (Returns (PStr "rhoai", PStr "rhoai-apps", PStr "rhods-dashboard"),
   [CONFIG_QUERY "oc"]).
Proof.
  apply (annotated_config_is_rhoai (decodes [(ONE_CONFIG_TEXT, ONE_CONFIG)]) "oc"
           (answers [(CONFIG_QUERY "oc", Completed 0 ONE_CONFIG_TEXT)]) []
           ONE_CONFIG_TEXT
           [("items", PList [
              PDict [("metadata", PDict [
                ("namespace", PStr "rhoai-apps");
                ("annotations",
                 PDict [("platform.opendatahub.io/type",
                         PStr "Red Hat OpenShift AI")])])]])]
           [] []
           (PDict [("metadata", PDict [
              ("namespace", PStr "rhoai-apps");
              ("annotations",
               PDict [("platform.opendatahub.io/type",
                       PStr "Red Hat OpenShift AI")])])])
           "Red Hat OpenShift AI" (PStr "rhoai-apps") (PStr ""));
    try (vm_compute; reflexivity).
  constructor.
Defined.

(** C4, as stated, fails when an earlier item already matches: the first
    match wins, here the [odh-dashboard] label of the first item. *)
Lemma annotated_config_counterexample :
  detect_platform (decodes [(TWO_CONFIGS_TEXT, TWO_CONFIGS)]) "oc"
    (answers [(CONFIG_QUERY "oc", Completed 0 TWO_CONFIGS_TEXT)]) [] =
  (Returns (PStr "odh", PStr "opendatahub", PStr "odh-dashboard"),
   [CONFIG_QUERY "oc"]).
Proof. vm_compute. reflexivity. Qed.

(** Whatever the cluster says, a descriptor that [detect_platform] returns is
    all [None], or names one of the two variants with its route name and a
    namespace that counts as true. *)
Lemma detect_platform_kind
    (json_loads : string → result pyval) (cli : string)
    (subprocess_run : list string → completed) (log log' : command_log)
    (d : descriptor) :
  detect_platform json_loads cli subprocess_run log = (Returns d, log') →
  d = UNKNOWN ∨
  ∃ namespace, truthy namespace = true ∧ (d = RHOAI namespace ∨ d = ODH namespace).
Proof.
  assert (∀ a b, b ≠ "" → truthy (or_else a (PStr b)) = true) as Hor.
  { intros a b Hb. unfold or_else. destruct (truthy a) eqn:Ha; [done|].
    simpl. by destruct (String.eqb_spec b ""). }
  assert (∀ items r, scan_configs items = Returns (Some r) →
    ∃ namespace, truthy namespace = true ∧
                 (r = RHOAI namespace ∨ r = ODH namespace)) as Hscan.
  { induction items as [|item items IH]; intros r; simpl; [done|].
    destruct (classify_config item) as [[r'|]|e] eqn:Hc; simpl; try done; [|by apply IH].
    intros [= <-]. unfold classify_config in Hc.
    destruct (config_fields item) as [[[annotation namespace] app_label]|];
      simpl in Hc; [|done].
    destruct (str_in "OpenShift AI" annotation) as [marker|]; simpl in Hc; [|done].
    repeat case_match; simplify_eq; eexists; (split; [|eauto]); by apply Hor. }
  rewrite detect_platform_eq.
  assert (∀ r, subscription_probes cli subprocess_run (log ++ [CONFIG_QUERY cli])
               = (Returns r, log') →
    r = UNKNOWN ∨
    ∃ namespace, truthy namespace = true ∧
                 (r = RHOAI namespace ∨ r = ODH namespace)) as Hprobes.
  { intros r. rewrite subscription_probes_eq.
    destruct (nonempty (run_command_value cli subprocess_run
                          (GET_SUBSCRIPTION "rhods-operator"))).
    { intros [= <- _]. right. exists (PStr "redhat-ods-applications").
      split; [done|by left]. }
    destruct (nonempty (run_command_value cli subprocess_run
                          (GET_SUBSCRIPTION "opendatahub-operator")));
      intros [= <- _]; [|by left].
    right. exists (PStr "opendatahub"). split; [done|by right]. }
  destruct (if_output _) as [text|]; [|by apply Hprobes].
  unfold scan_config_output.
  destruct (json_loads text) as [data|[]]; simpl; try done; try by apply Hprobes.
  destruct (get data "items" (PList [])) as [items|[]]; simpl;
    try done; try by apply Hprobes.
  destruct (iter items) as [l|[]]; simpl; try done; try by apply Hprobes.
  destruct (scan_configs l) as [[r|]|[]] eqn:Hl; try done; try by apply Hprobes.
  intros [= <- _]. right. by eapply Hscan.
Qed.

(** C9, as amended.  When the output of the platform-configuration query is
    absent, is not JSON, or is JSON of the expected shape, [detect_platform]
    returns, and what it returns is either [(None, None, None)] or a
    descriptor whose kind is ['rhoai'] or ['odh'], with a non-empty namespace
    string and a non-empty route-name string. *)
Theorem detect_platform_filled_or_unknown
    (json_loads : string → result pyval) (cli : string)
    (subprocess_run : list string → completed) (log : command_log) :
  match if_output (run_command_value cli subprocess_run GET_ODHDASHBOARDCONFIG) with
  | Some text =>
      json_loads text = Raises JSONDecodeError ∨
      ∃ data, json_loads text = Returns data ∧ expected_shape data = true
  | None => True
  end →
  ∃ d issued,
    detect_platform json_loads cli subprocess_run log = (Returns d, log ++ issued) ∧
    filled_or_unknown d.
Proof.
  intros Hshape.
  assert (∃ d issued,
    subscription_probes cli subprocess_run (log ++ [CONFIG_QUERY cli]) =
      (Returns d, log ++ issued) ∧ filled_or_unknown d) as Hprobes.
  { rewrite subscription_probes_eq.
    destruct (nonempty (run_command_value cli subprocess_run
                          (GET_SUBSCRIPTION "rhods-operator"))).
    { rewrite <-(assoc_L (++)). do 2 eexists. split; [reflexivity|].
      by apply filled_RHOAI. }
    destruct (nonempty (run_command_value cli subprocess_run
                          (GET_SUBSCRIPTION "opendatahub-operator")));
      rewrite <-(assoc_L (++)); do 2 eexists; (split; [reflexivity|]);
      [by apply filled_ODH|by left]. }
  rewrite detect_platform_eq.
  destruct (if_output _) as [text|]; [|done].
  unfold scan_config_output.
  destruct Hshape as [->|(data & -> & Hdata)]; [done|]. simpl.
  unfold expected_shape, field in Hdata. destruct data as [| | | | | |d]; try done.
  simpl. destruct (from_option id (PList []) (dict_lookup "items" d))
    as [| | | | |items|]; try done. simpl.
  destruct (scan_configs_expected items Hdata) as ([r|] & -> & Hr); [|done].
  by exists r, [CONFIG_QUERY cli].
Qed.

Lemma detect_platform_filled_or_unknown_witness :
  ∃ d issued,
    detect_platform (decodes [(TWO_CONFIGS_TEXT, TWO_CONFIGS)]) "oc"
      (answers [(CONFIG_QUERY "oc", Completed 0 TWO_CONFIGS_TEXT)]) [] =
      (Returns d, [] ++ issued) ∧
    filled_or_unknown d.
Proof.
  apply (detect_platform_filled_or_unknown
           (decodes [(TWO_CONFIGS_TEXT, TWO_CONFIGS)]) "oc"
           (answers [(CONFIG_QUERY "oc", Completed 0 TWO_CONFIGS_TEXT)]) []).
  right. exists TWO_CONFIGS. split; vm_compute; reflexivity.
Defined.

(** C9, as stated, fails: a configuration whose namespace is a number gives a
    descriptor whose namespace is that number, not a string; and a document
    of another shape gives no descriptor at all, but an exception. *)
Lemma detect_platform_descriptor_counterexample :
  detect_platform (decodes [(NUMBER_NAMESPACE_TEXT, NUMBER_NAMESPACE)]) "oc"
    (answers [(CONFIG_QUERY "oc", Completed 0 NUMBER_NAMESPACE_TEXT)]) [] =
    (Returns (PStr "rhoai", PInt 5, PStr "rhods-dashboard"), [CONFIG_QUERY "oc"]) ∧
  ¬ filled_or_unknown (PStr "rhoai", PInt 5, PStr "rhods-dashboard") ∧
  detect_platform (decodes [("[]", PList [])]) "oc"
    (answers [(CONFIG_QUERY "oc", Completed 0 "[]")]) [] =
    (Raises AttributeError, [CONFIG_QUERY "oc"]).
Proof.
  split; [vm_compute; reflexivity|]. split; [|vm_compute; reflexivity].
  intros [[=]|(kind & namespace & route_name & [=] & _)].
Qed.

(** ** The resolver and the URL discoverer *)

(** C5.  For every list of placeholders and every override: when platform
    detection returns the unknown descriptor, [auto_discover_values] ends the
    process with exit status 1 in the very state detection left behind.
    Nothing was asked of the cluster but the questions of the detection:
    neither query of [discover_redirect_url] was made, and that function
    begins with a query (see [discover_redirect_url_queries]). *)
Theorem unknown_platform_exits
    (json_loads : string → result pyval) (cli : string)
    (subprocess_run : list string → completed)
    (variables : list string) (redirect_url_override : option string)
    (log log' : command_log) :
  detect_platform json_loads cli subprocess_run log = (Returns UNKNOWN, log') →
  auto_discover_values json_loads cli subprocess_run variables redirect_url_override log
    = (Raises (SystemExit 1), log') ∧
  ∃ issued, log' = (log ++ issued) ∧
            (CONSOLELINK_QUERY cli ∉ issued) ∧ (ROUTE_QUERY cli ∉ issued).
Proof.
  intros Hdetect. split.
  - unfold auto_discover_values, mbind, M_bind. by rewrite Hdetect.
  - destruct (detect_platform_queries _ _ _ _ _ _ Hdetect) as (issued & -> & Hsub).
    exists issued. split; [done|].
    split; intros Hin%Hsub; set_unfold in Hin;
      destruct Hin as [Hin|[Hin|[Hin|[]]]]; vm_compute in Hin; discriminate Hin.
Qed.

Lemma unknown_platform_exits_witness :
  auto_discover_values (decodes []) "oc" (answers [])
    ["NAMESPACE"; "REDIRECT_URL"; "ROUTE_NAME"] None [] =
  (Raises (SystemExit 1), [CONFIG_QUERY "oc"; RHOAI_QUERY "oc"; ODH_QUERY "oc"]).
Proof.
  apply (unknown_platform_exits (decodes []) "oc" (answers [])
           ["NAMESPACE"; "REDIRECT_URL"; "ROUTE_NAME"] None []).
  vm_compute. reflexivity.
Defined.

Section links.

Implicit Types (item : pyval) (items : list pyval).

(** A console link for one of the two products whose address is empty or
    missing is passed over: the loop goes on with the items behind it. *)
Lemma scan_links_skips_empty_href (i spec : list (string * pyval)) (text : string) items :
  dict_lookup "spec" i = Some (PDict spec) →
  dict_lookup "text" spec = Some (PStr text) →
  contains "OpenShift AI" text || contains "Open Data Hub" text = true →
  dict_lookup "href" spec = None ∨ dict_lookup "href" spec = Some (PStr "") →
  scan_links (PDict i :: items) = scan_links items.
Proof.
  intros Hspec Htext Hwanted Hhref.
  assert (classify_link (PDict i) = Returns None) as Hskip.
  { unfold classify_link, get. simpl. rewrite Hspec. simpl. rewrite Htext. simpl.
    destruct (contains "OpenShift AI" text); simpl in *;
      rewrite ?Hwanted; simpl; by destruct Hhref as [->| ->]. }
  simpl. by rewrite Hskip.
Qed.

End links.

(** The first console link has no address and is passed over; the second
    one gives the URL, without its trailing slash. *)
Example discover_redirect_url_skips_empty_href :
  discover_redirect_url (decodes [(TWO_LINKS_TEXT, TWO_LINKS)]) "oc"
    (answers [(CONSOLELINK_QUERY "oc", Completed 0 TWO_LINKS_TEXT)]) [] =
  (Returns (PStr "https://odh.apps.example.com"), [CONSOLELINK_QUERY "oc"]).
Proof. vm_compute. reflexivity. Qed.

(** C10 at the input on which it breaks.  A console link for OpenShift AI
    whose address is ["/"] passes the emptiness test, loses its slash
    afterwards, and [discover_redirect_url] returns the empty string; the
    route that would have given a URL is never asked for. *)
Theorem discover_redirect_url_returns_empty :
  discover_redirect_url (decodes [(SLASH_LINK_TEXT, SLASH_LINK)]) "oc"
    (answers [(CONSOLELINK_QUERY "oc", Completed 0 SLASH_LINK_TEXT);
              (ROUTE_QUERY "oc", Completed 0 "data-science-gateway.apps.example.com")])
    [] =
  (Returns (PStr ""), [CONSOLELINK_QUERY "oc"]).
Proof. vm_compute. reflexivity. Qed.

(** * Further properties *)

(** ** [run_command] *)

Section stripping.

Implicit Types (s t : string) (a : Ascii.ascii).

Lemma rstrip_space_String a s :
  rstrip_space (String a s) =
  match rstrip_space s with
  | "" => if isspace a then "" else String a ""
  | t => String a t
  end.
Proof. reflexivity. Qed.

Lemma lstrip_space_blank s : lstrip_space s = "" ↔ blank s = true.
Proof.
  induction s as [|a s IH]; simpl; [done|].
  destruct (isspace a); simpl; [done|]. split; discriminate.
Qed.

Lemma rstrip_space_blank s : rstrip_space s = "" ↔ blank s = true.
Proof.
  induction s as [|a s IH]; [done|]. rewrite rstrip_space_String. simpl.
  destruct (rstrip_space s) as [|c t].
  - destruct (isspace a); simpl; [tauto|]. split; discriminate.
  - split; [discriminate|]. intros [_ Hs]%andb_prop.
    by apply IH in Hs.
Qed.

(** What is left of a text that is not blank begins with a visible
    character. *)
Lemma lstrip_space_head s :
  lstrip_space s = "" ∨
  ∃ a t, lstrip_space s = String a t ∧ isspace a = false.
Proof.
  induction s as [|a s IH]; simpl; [by left|].
  destruct (isspace a) eqn:Ha; [done|]. right. by exists a, s.
Qed.

Lemma rstrip_space_head a s :
  isspace a = false → ∃ t, rstrip_space (String a s) = String a t.
Proof.
  intros Ha. rewrite rstrip_space_String, Ha.
  destruct (rstrip_space s); by eexists.
Qed.

Lemma rstrip_space_idemp s : rstrip_space (rstrip_space s) = rstrip_space s.
Proof.
  induction s as [|a s IH]; [done|]. rewrite rstrip_space_String.
  destruct (rstrip_space s) as [|c t] eqn:Hs.
  - destruct (isspace a) eqn:Ha; [done|].
    by rewrite rstrip_space_String, Ha.
  - by rewrite rstrip_space_String, IH.
Qed.

Lemma strip_blank s : strip s = "" ↔ blank s = true.
Proof.
  unfold strip. rewrite rstrip_space_blank.
  destruct (lstrip_space_head s) as [Hs|(a & t & Hs & Ha)].
  - rewrite Hs. simpl. rewrite <-lstrip_space_blank. tauto.
  - rewrite Hs. simpl. rewrite Ha. simpl.
    rewrite <-lstrip_space_blank, Hs. split; discriminate.
Qed.

Lemma strip_idemp s : strip (strip s) = strip s.
Proof.
  unfold strip.
  destruct (lstrip_space_head s) as [Hs|(a & t & Hs & Ha)]; rewrite Hs; [done|].
  destruct (rstrip_space_head a t Ha) as [t' Ht'].
  rewrite Ht'. simpl. rewrite Ha, <-Ht'. apply rstrip_space_idemp.
Qed.

End stripping.


Example run_command_blank_output :
  run_command_value "oc"
    (answers [(RHOAI_QUERY "oc", Completed 0 (String LF ""))])
    (GET_SUBSCRIPTION "rhods-operator") = Some "" ∧
  nonempty
    (run_command_value "oc"
       (answers [(RHOAI_QUERY "oc", Completed 0 (String LF ""))])
       (GET_SUBSCRIPTION "rhods-operator")) = false.
Proof. split; vm_compute; reflexivity. Qed.

(** ** [detect_platform] *)

Section detection.

Context (json_loads : string → result pyval) (cli : string)
        (subprocess_run : list string → completed).

Implicit Types (log : command_log) (item : pyval) (d : descriptor).

Lemma scan_config_output_no_items text :
  json_loads text = Raises JSONDecodeError ∨
  (∃ dict, json_loads text = Returns (PDict dict) ∧
     (dict_lookup "items" dict = None ∨
      dict_lookup "items" dict = Some (PList []))) →
  scan_config_output json_loads text = Raises JSONDecodeError ∨
  scan_config_output json_loads text = Returns None.
Proof.
  unfold scan_config_output. intros [->|(dict & -> & [Hi|Hi])]; simpl;
    rewrite ?Hi; auto.
Qed.

(** With no items, detection is the two subscription probes. *)
Lemma detect_platform_no_items log :
  no_items json_loads (run_command_value cli subprocess_run GET_ODHDASHBOARDCONFIG) →
  detect_platform json_loads cli subprocess_run log =
  subscription_probes cli subprocess_run (log ++ [CONFIG_QUERY cli]).
Proof.
  unfold no_items. rewrite detect_platform_eq.
  destruct (if_output _) as [text|]; [|done].
  by intros [-> | ->]%scan_config_output_no_items.
Qed.

(** The first item that matches decides, and ends the detection. *)
Lemma detect_platform_first_match log text dict
    (earlier later : list pyval) item d :
  if_output (run_command_value cli subprocess_run GET_ODHDASHBOARDCONFIG) = Some text →
  json_loads text = Returns (PDict dict) →
  dict_lookup "items" dict = Some (PList (earlier ++ item :: later)) →
  Forall (λ item, classify_config item = Returns None) earlier →
  classify_config item = Returns (Some d) →
  detect_platform json_loads cli subprocess_run log =
    (Returns d, log ++ [CONFIG_QUERY cli]).
Proof.
  intros Hout Hjson Hitems Hearlier Hitem.
  rewrite detect_platform_eq, Hout. unfold scan_config_output.
  rewrite Hjson. simpl. rewrite Hitems. simpl.
  rewrite scan_configs_app by done. simpl. by rewrite Hitem.
Qed.

End detection.



(** X3.  When the configuration query returns no items and the
    [rhods-operator] subscription query returns a non-empty result,
    [detect_platform] returns variant A with its default namespace and route
    name, and the [opendatahub-operator] query is not run. *)
Theorem rhoai_subscription_fallback
    (json_loads : string → result pyval) (cli : string)
    (subprocess_run : list string → completed) (log : command_log) :
  no_items json_loads (run_command_value cli subprocess_run GET_ODHDASHBOARDCONFIG) →
  nonempty (run_command_value cli subprocess_run (GET_SUBSCRIPTION "rhods-operator"))
    = true →
  detect_platform json_loads cli subprocess_run log =
    (Returns (PStr "rhoai", PStr "redhat-ods-applications", PStr "rhods-dashboard"),
     log ++ [CONFIG_QUERY cli; RHOAI_QUERY cli]).
Proof.
  intros Hnone Hrhoai.
  rewrite detect_platform_no_items, subscription_probes_eq, Hrhoai by done.
  by rewrite <-(assoc_L (++)).
Qed.

Lemma rhoai_subscription_fallback_witness :
  detect_platform (decodes [(NO_ITEMS_TEXT, NO_ITEMS)]) "kubectl"
    (answers [(CONFIG_QUERY "kubectl", Completed 0 NO_ITEMS_TEXT);
              (RHOAI_QUERY "kubectl", Completed 0 "rhods-operator")]) [] =
  (Returns (PStr "rhoai", PStr "redhat-ods-applications", PStr "rhods-dashboard"),
   [CONFIG_QUERY "kubectl"; RHOAI_QUERY "kubectl"]).
Proof.
  apply (rhoai_subscription_fallback (decodes [(NO_ITEMS_TEXT, NO_ITEMS)]) "kubectl"
           (answers [(CONFIG_QUERY "kubectl", Completed 0 NO_ITEMS_TEXT);
                     (RHOAI_QUERY "kubectl", Completed 0 "rhods-operator")]) []).
  - right. exists [("items", PList [])]. split; [vm_compute; reflexivity|].
    right. reflexivity.
  - vm_compute. reflexivity.
Defined.

(** X4.  When the configuration query returns no items and both
    subscription queries come back empty, [detect_platform] returns
    [(None, None, None)] after exactly the three queries. *)
Theorem nothing_detected
    (json_loads : string → result pyval) (cli : string)
    (subprocess_run : list string → completed) (log : command_log) :
  no_items json_loads (run_command_value cli subprocess_run GET_ODHDASHBOARDCONFIG) →
  nonempty (run_command_value cli subprocess_run (GET_SUBSCRIPTION "rhods-operator"))
    = false →
  nonempty (run_command_value cli subprocess_run (GET_SUBSCRIPTION "opendatahub-operator"))
    = false →
  detect_platform json_loads cli subprocess_run log =
    (Returns (PNone, PNone, PNone),
     log ++ [CONFIG_QUERY cli; RHOAI_QUERY cli; ODH_QUERY cli]).
Proof.
  intros Hnone Hrhoai Hodh.
  rewrite detect_platform_no_items, subscription_probes_eq, Hrhoai, Hodh by done.
  by rewrite <-(assoc_L (++)).
Qed.

Lemma nothing_detected_witness :
  detect_platform (decodes []) "oc"
    (answers [(CONFIG_QUERY "oc", Completed 0 "Forbidden");
              (RHOAI_QUERY "oc", TimeoutExpired);
              (ODH_QUERY "oc", Completed 0 (String LF ""))]) [] =
  (Returns (PNone, PNone, PNone),
   [CONFIG_QUERY "oc"; RHOAI_QUERY "oc"; ODH_QUERY "oc"]).
Proof.
  apply (nothing_detected (decodes []) "oc"
           (answers [(CONFIG_QUERY "oc", Completed 0 "Forbidden");
                     (RHOAI_QUERY "oc", TimeoutExpired);
                     (ODH_QUERY "oc", Completed 0 (String LF ""))]) []).
  - left. vm_compute. reflexivity.
  - vm_compute. reflexivity.
  - vm_compute. reflexivity.
Defined.

(** X5.  An item labelled [app: rhods-dashboard] decides for variant A
    whatever its annotation says (as long as the annotation can be searched),
    with the item's namespace or the default; no earlier item matching, no
    subscription is looked up. *)
Theorem rhods_label_is_rhoai
    (json_loads : string → result pyval) (cli : string)
    (subprocess_run : list string → completed) (log : command_log)
    (text : string) (dict : list (string * pyval))
    (earlier later : list pyval) (item annotation namespace : pyval)
    (marker : bool) :
  if_output (run_command_value cli subprocess_run GET_ODHDASHBOARDCONFIG) = Some text →
  json_loads text = Returns (PDict dict) →
  dict_lookup "items" dict = Some (PList (earlier ++ item :: later)) →
  Forall (λ item, classify_config item = Returns None) earlier →
  config_fields item = Returns (annotation, namespace, PStr "rhods-dashboard") →
  str_in "OpenShift AI" annotation = Returns marker →
  detect_platform json_loads cli subprocess_run log =
    (Returns (PStr "rhoai",
              (if truthy namespace then namespace else PStr "redhat-ods-applications"),
              PStr "rhods-dashboard"),
     log ++ [CONFIG_QUERY cli]).
Proof.
  intros Hout Hjson Hitems Hearlier Hfields Hmarker.
  apply (detect_platform_first_match _ _ _ _ text dict earlier later item); try done.
  unfold classify_config. rewrite Hfields. simpl. rewrite Hmarker. simpl.
  by rewrite orb_true_r.
Qed.

(** X6.  An item labelled [app: odh-dashboard] whose annotation does not
    mention OpenShift AI decides for variant B, with the item's namespace or
    the default ['opendatahub']. *)
Theorem odh_label_is_odh
    (json_loads : string → result pyval) (cli : string)
    (subprocess_run : list string → completed) (log : command_log)
    (text : string) (dict : list (string * pyval))
    (earlier later : list pyval) (item annotation namespace : pyval) :
  if_output (run_command_value cli subprocess_run GET_ODHDASHBOARDCONFIG) = Some text →
  json_loads text = Returns (PDict dict) →
  dict_lookup "items" dict = Some (PList (earlier ++ item :: later)) →
  Forall (λ item, classify_config item = Returns None) earlier →
  config_fields item = Returns (annotation, namespace, PStr "odh-dashboard") →
  str_in "OpenShift AI" annotation = Returns false →
  detect_platform json_loads cli subprocess_run log =
    (Returns (PStr "odh",
              (if truthy namespace then namespace else PStr "opendatahub"),
              PStr "odh-dashboard"),
     log ++ [CONFIG_QUERY cli]).
Proof.
  intros Hout Hjson Hitems Hearlier Hfields Hmarker.
  apply (detect_platform_first_match _ _ _ _ text dict earlier later item); try done.
  unfold classify_config. rewrite Hfields. simpl. by rewrite Hmarker.
Qed.

Lemma odh_label_is_odh_witness :
  detect_platform (decodes [(TWO_CONFIGS_TEXT, TWO_CONFIGS)]) "oc"
    (answers [(CONFIG_QUERY "oc", Completed 0 TWO_CONFIGS_TEXT)]) [] =
  (Returns (PStr "odh", PStr "opendatahub", PStr "odh-dashboard"),
   [CONFIG_QUERY "oc"]).
Proof.
  apply (odh_label_is_odh (decodes [(TWO_CONFIGS_TEXT, TWO_CONFIGS)]) "oc"
           (answers [(CONFIG_QUERY "oc", Completed 0 TWO_CONFIGS_TEXT)]) []
           TWO_CONFIGS_TEXT
           [("items", PList [
              PDict [("metadata", PDict [
                ("namespace", PStr "opendatahub");
                ("labels", PDict [("app", PStr "odh-dashboard")])])];
              PDict [("metadata", PDict [
                ("namespace", PStr "redhat-ods-applications");
                ("annotations",
                 PDict [("platform.opendatahub.io/type", PStr "OpenShift AI")])])]])]
           []
           [PDict [("metadata", PDict [
              ("namespace", PStr "redhat-ods-applications");
              ("annotations",
               PDict [("platform.opendatahub.io/type", PStr "OpenShift AI")])])]]
           (PDict [("metadata", PDict [
              ("namespace", PStr "opendatahub");
              ("labels", PDict [("app", PStr "odh-dashboard")])])])
           (PStr "") (PStr "opendatahub"));
    try (vm_compute; reflexivity).
  constructor.
Defined.

Lemma rhods_label_is_rhoai_witness :
  detect_platform (decodes [(NUMBER_NAMESPACE_TEXT, NUMBER_NAMESPACE)]) "oc"
    (answers [(CONFIG_QUERY "oc", Completed 0 NUMBER_NAMESPACE_TEXT)]) [] =
  (Returns (PStr "rhoai", PInt 5, PStr "rhods-dashboard"), [CONFIG_QUERY "oc"]).
Proof.
  apply (rhods_label_is_rhoai
           (decodes [(NUMBER_NAMESPACE_TEXT, NUMBER_NAMESPACE)]) "oc"
           (answers [(CONFIG_QUERY "oc", Completed 0 NUMBER_NAMESPACE_TEXT)]) []
           NUMBER_NAMESPACE_TEXT
           [("items", PList [
              PDict [("metadata", PDict [
                ("namespace", PInt 5);
                ("labels", PDict [("app", PStr "rhods-dashboard")])])]])]
           [] []
           (PDict [("metadata", PDict [
              ("namespace", PInt 5);
              ("labels", PDict [("app", PStr "rhods-dashboard")])])])
           (PStr "") (PInt 5) false);
    try (vm_compute; reflexivity).
  constructor.
Defined.


Lemma decodes_raises (table : list (string * pyval)) (text : string) (e : exn) :
  decodes table text = Raises e → e = JSONDecodeError.
Proof.
  induction table as [|[doc v] table IH]; simpl; [by intros [= <-]|].
  by destruct (String.eqb text doc).
Qed.


(** X8.  A descriptor that [detect_platform] returns is never filled in by
    halves, whatever the cluster answered: either all three fields are
    [None], or the kind is ["rhoai"] with route name ["rhods-dashboard"], or
    the kind is ["odh"] with route name ["odh-dashboard"], and in both
    cases the namespace counts as true. *)
Theorem descriptor_is_whole
    (json_loads : string → result pyval) (cli : string)
    (subprocess_run : list string → completed) (log log' : command_log)
    (platform_type namespace route_name : pyval) :
  detect_platform json_loads cli subprocess_run log =
    (Returns (platform_type, namespace, route_name), log') →
  (platform_type = PNone ∧ namespace = PNone ∧ route_name = PNone) ∨
  (truthy namespace = true ∧
   ((platform_type = PStr "rhoai" ∧ route_name = PStr "rhods-dashboard") ∨
    (platform_type = PStr "odh" ∧ route_name = PStr "odh-dashboard"))).
Proof.
  intros Hdetect. apply detect_platform_kind in Hdetect.
  destruct Hdetect as [[= -> -> ->]|(ns & Hns & [[= -> -> ->]|[= -> -> ->]])];
    [by left|right..]; (split; [done|]); [by left|by right].
Qed.

Lemma descriptor_is_whole_witness :
  (PStr "rhoai" = PNone ∧ PInt 5 = PNone ∧ PStr "rhods-dashboard" = PNone) ∨
  (truthy (PInt 5) = true ∧
   ((PStr "rhoai" = PStr "rhoai" ∧ PStr "rhods-dashboard" = PStr "rhods-dashboard") ∨
    (PStr "rhoai" = PStr "odh" ∧ PStr "rhods-dashboard" = PStr "odh-dashboard"))).
Proof.
  apply (descriptor_is_whole
           (decodes [(NUMBER_NAMESPACE_TEXT, NUMBER_NAMESPACE)]) "oc"
           (answers [(CONFIG_QUERY "oc", Completed 0 NUMBER_NAMESPACE_TEXT)])
           [] [CONFIG_QUERY "oc"]).
  vm_compute. reflexivity.
Defined.

(** ** [discover_redirect_url] *)

Section links_more.

Implicit Types (s : string) (c : Ascii.ascii) (item : pyval).

Lemma rstrip_String c a s :
  rstrip c (String a s) =
  match rstrip c s with
  | "" => if Ascii.eqb a c then "" else String a ""
  | t => String a t
  end.
Proof. reflexivity. Qed.

(** [s.rstrip(c)] is [s] without the run of [c] at its end. *)
Lemma rstrip_spec c s :
  last_char (rstrip c s) ≠ Some c ∧
  ∃ tail, s = rstrip c s +:+ tail ∧ only_char c tail = true.
Proof.
  induction s as [|a s [IHlast (tail & IHs & IHtail)]].
  { split; [done|]. by exists "". }
  rewrite rstrip_String. destruct (rstrip c s) as [|b t] eqn:Hs.
  - destruct (Ascii.eqb_spec a c) as [->|Hne].
    + split; [done|]. exists (String c tail). split.
      * rewrite IHs at 1. by rewrite app_empty_l.
      * simpl. by rewrite Ascii.eqb_refl.
    + split; [simpl; congruence|]. exists tail. split; [|done].
      rewrite IHs at 1. by rewrite app_empty_l.
  - split; [done|]. exists tail. split; [|done].
    rewrite IHs at 1. by rewrite !app_String.
Qed.

Lemma scan_links_app (earlier later : list pyval) :
  Forall (λ item, classify_link item = Returns None) earlier →
  scan_links (earlier ++ later) = scan_links later.
Proof.
  induction 1 as [|item earlier Hitem _ IH]; [done|].
  simpl. by rewrite Hitem.
Qed.

(** A URL that comes from a console link is a string that does not end in a
    slash. *)
Lemma classify_link_Some item v :
  classify_link item = Returns (Some v) →
  ∃ s, v = PStr s ∧ last_char s ≠ Some "/"%char.
Proof.
  unfold classify_link, get, str_in, rstrip_slash.
  repeat (case_match; simpl; try done); intros [= <-];
    eexists; (split; [done|]); apply rstrip_spec.
Qed.

Lemma scan_links_Some (items : list pyval) v :
  scan_links items = Returns (Some v) →
  ∃ s, v = PStr s ∧ last_char s ≠ Some "/"%char.
Proof.
  induction items as [|item items IH]; simpl; [done|].
  destruct (classify_link item) as [[w|]|] eqn:Hc; simpl; try done.
  intros [= <-]. by eapply classify_link_Some.
Qed.

Lemma scan_link_output_Some json_loads (text : string) v :
  scan_link_output json_loads text = Returns (Some v) →
  ∃ s, v = PStr s ∧ last_char s ≠ Some "/"%char.
Proof.
  unfold scan_link_output.
  destruct (json_loads text) as [data|]; simpl; [|done].
  destruct (get data "items" (PList [])) as [items|]; simpl; [|done].
  destruct (iter items) as [l|]; simpl; [|done]. apply scan_links_Some.
Qed.

Lemma classify_link_href (item spec : list (string * pyval)) (title href : string) :
  dict_lookup "spec" item = Some (PDict spec) →
  dict_lookup "text" spec = Some (PStr title) →
  contains "OpenShift AI" title || contains "Open Data Hub" title = true →
  dict_lookup "href" spec = Some (PStr href) →
  href ≠ "" →
  classify_link (PDict item) = Returns (Some (PStr (rstrip "/" href))).
Proof.
  intros Hspec Htitle Hwanted Hhref Hne.
  unfold classify_link, get. simpl. rewrite Hspec. simpl. rewrite Htitle. simpl.
  destruct (contains "OpenShift AI" title); simpl in *;
    rewrite ?Hwanted; simpl; rewrite Hhref; simpl;
    by destruct href.
Qed.

End links_more.

(** X9.  The first console link that qualifies (its text mentions OpenShift
    AI or Open Data Hub, its address is a non-empty string, and no item before
    it gives a URL) decides: [discover_redirect_url] returns its address
    without the slashes at its end, and the route is not asked for. *)
Theorem first_link_wins
    (json_loads : string → result pyval) (cli : string)
    (subprocess_run : list string → completed) (log : command_log)
    (text : string) (dict item spec : list (string * pyval))
    (earlier later : list pyval) (title href : string) :
  if_output (run_command_value cli subprocess_run GET_CONSOLELINK) = Some text →
  json_loads text = Returns (PDict dict) →
  dict_lookup "items" dict = Some (PList (earlier ++ PDict item :: later)) →
  Forall (λ item, classify_link item = Returns None) earlier →
  dict_lookup "spec" item = Some (PDict spec) →
  dict_lookup "text" spec = Some (PStr title) →
  contains "OpenShift AI" title || contains "Open Data Hub" title = true →
  dict_lookup "href" spec = Some (PStr href) →
  href ≠ "" →
  discover_redirect_url json_loads cli subprocess_run log =
    (Returns (PStr (rstrip "/" href)), log ++ [CONSOLELINK_QUERY cli]) ∧
  last_char (rstrip "/" href) ≠ Some "/"%char ∧
  ∃ slashes, href = rstrip "/" href +:+ slashes ∧ only_char "/" slashes = true.
Proof.
  intros Hout Hjson Hitems Hearlier Hspec Htitle Hwanted Hhref Hne.
  split; [|apply rstrip_spec].
  rewrite discover_redirect_url_eq. simpl. rewrite Hout.
  unfold scan_link_output. rewrite Hjson. simpl. rewrite Hitems. simpl.
  rewrite scan_links_app by done. simpl.
  by rewrite (classify_link_href item spec title href).
Qed.

Lemma first_link_wins_witness :
  discover_redirect_url (decodes [(TWO_LINKS_TEXT, TWO_LINKS)]) "oc"
    (answers [(CONSOLELINK_QUERY "oc", Completed 0 TWO_LINKS_TEXT)]) [] =
  (Returns (PStr "https://odh.apps.example.com"), [CONSOLELINK_QUERY "oc"]).
Proof.
  destruct (first_link_wins (decodes [(TWO_LINKS_TEXT, TWO_LINKS)]) "oc"
              (answers [(CONSOLELINK_QUERY "oc", Completed 0 TWO_LINKS_TEXT)]) []
              TWO_LINKS_TEXT
              [("items", PList [
                 PDict [("spec", PDict [
                   ("text", PStr "Red Hat OpenShift AI"); ("href", PStr "")])];
                 PDict [("spec", PDict [
                   ("text", PStr "Open Data Hub");
                   ("href", PStr "https://odh.apps.example.com/")])]])]
              [("spec", PDict [("text", PStr "Open Data Hub");
                               ("href", PStr "https://odh.apps.example.com/")])]
              [("text", PStr "Open Data Hub");
               ("href", PStr "https://odh.apps.example.com/")]
              [PDict [("spec", PDict [
                 ("text", PStr "Red Hat OpenShift AI"); ("href", PStr "")])]]
              []
              "Open Data Hub" "https://odh.apps.example.com/")
    as [Hrun _]; try (vm_compute; reflexivity); try done.
  repeat constructor.
Defined.

(** X10.  When the console links lead to no URL and the
    [data-science-gateway] route has a host, [discover_redirect_url] returns
    [https://] followed by that host; when the route gives nothing either, it
    returns [None].  Both queries were made, in this order. *)
Theorem route_fallback
    (json_loads : string → result pyval) (cli : string)
    (subprocess_run : list string → completed) (log : command_log) :
  no_link json_loads (run_command_value cli subprocess_run GET_CONSOLELINK) →
  discover_redirect_url json_loads cli subprocess_run log =
    (Returns
       match if_output (run_command_value cli subprocess_run GET_ROUTE) with
       | Some host => PStr ("https://" +:+ host)
       | None => PNone
       end,
     log ++ [CONSOLELINK_QUERY cli; ROUTE_QUERY cli]).
Proof.
  unfold no_link. rewrite discover_redirect_url_eq. simpl.
  destruct (if_output (run_command_value _ _ GET_CONSOLELINK)) as [text|].
  - intros [-> | ->]; by destruct (if_output _).
  - intros _. by destruct (if_output _).
Qed.

Lemma route_fallback_witness :
  discover_redirect_url (decodes []) "oc"
    (answers [(CONSOLELINK_QUERY "oc", Completed 0 "No resources found");
              (ROUTE_QUERY "oc", Completed 0 "data-science-gateway.apps.example.com")])
    [] =
  (Returns (PStr "https://data-science-gateway.apps.example.com"),
   [CONSOLELINK_QUERY "oc"; ROUTE_QUERY "oc"]).
Proof.
  apply (route_fallback (decodes []) "oc"
           (answers [(CONSOLELINK_QUERY "oc", Completed 0 "No resources found");
                     (ROUTE_QUERY "oc",
                      Completed 0 "data-science-gateway.apps.example.com")]) []).
  left. vm_compute. reflexivity.
Defined.



(** ** [auto_discover_values] *)

(** What the first two [if]s of the resolver put into the map. *)
Lemma platform_values_lookup (variables : list string) (namespace route_name : pyval)
    (var : string) :
  (let values : gmap string pyval := ∅ in
   let values :=
     if bool_decide ("NAMESPACE" ∈ variables)
     then <["NAMESPACE" := namespace]> values else values in
   if bool_decide ("ROUTE_NAME" ∈ variables)
   then <["ROUTE_NAME" := route_name]> values else values) !! var =
  if bool_decide (var = "ROUTE_NAME" ∧ "ROUTE_NAME" ∈ variables) then Some route_name
  else if bool_decide (var = "NAMESPACE" ∧ "NAMESPACE" ∈ variables) then Some namespace
  else None.
Proof.
  simpl. repeat case_bool_decide; simplify_map_eq; try done; naive_solver.
Qed.

Section resolver.

Context (json_loads : string → result pyval) (cli : string)
        (subprocess_run : list string → completed).

Implicit Types (log : command_log) (values : gmap string pyval)
               (variables : list string) (var : string).

Lemma resolve_cons redirect_url_override var variables values log :
  resolve json_loads cli subprocess_run redirect_url_override (var :: variables)
    values log =
  if bool_decide (is_Some (values !! var)) then
    resolve json_loads cli subprocess_run redirect_url_override variables values log
  else
    match (if String.eqb var "REDIRECT_URL" then
             match if_output redirect_url_override with
             | Some url => mret (PStr url)
             | None => discover_redirect_url json_loads cli subprocess_run
             end
           else mret PNone) log with
    | (Returns discovered, log1) =>
        if truthy discovered then
          resolve json_loads cli subprocess_run redirect_url_override variables
            (<[var := discovered]> values) log1
        else if bool_decide (values !! var = None) then (Raises (SystemExit 1), log1)
        else resolve json_loads cli subprocess_run redirect_url_override variables
               values log1
    | (Raises e, log1) => (Raises e, log1)
    end.
Proof.
  simpl. case_bool_decide; [done|]. unfold mbind at 1, M_bind at 1.
  match goal with
  | |- match ?m with _ => _ end = _ => destruct m as [[v|e] log1]
  end; [|done].
  destruct (truthy v); [done|]. by case_bool_decide.
Qed.

Ltac is_present var values H :=
  destruct (decide (is_Some (values !! var))) as [H|H];
  [rewrite (bool_decide_eq_true_2 _ H) | rewrite (bool_decide_eq_false_2 _ H)].

Lemma auto_discover_values_eq variables redirect_url_override log :
  auto_discover_values json_loads cli subprocess_run variables redirect_url_override log =
  match detect_platform json_loads cli subprocess_run log with
  | (Returns (platform_type, namespace, route_name), log1) =>
      if truthy platform_type then
        resolve json_loads cli subprocess_run redirect_url_override variables
          (let values : gmap string pyval := ∅ in
           let values :=
             if bool_decide ("NAMESPACE" ∈ variables)
             then <["NAMESPACE" := namespace]> values else values in
           if bool_decide ("ROUTE_NAME" ∈ variables)
           then <["ROUTE_NAME" := route_name]> values else values)
          log1
      else (Raises (SystemExit 1), log1)
  | (Raises e, log1) => (Raises e, log1)
  end.
Proof.
  unfold auto_discover_values, mbind, M_bind.
  destruct (detect_platform _ _ _ log) as [[[[pt ns] rn]|e] log1]; [|done].
  by destruct (truthy pt).
Qed.

Lemma resolve_all_present redirect_url_override variables values log :
  Forall (λ var, is_Some (values !! var)) variables →
  resolve json_loads cli subprocess_run redirect_url_override variables values log =
    (Returns values, log).
Proof.
  intros Hall. induction variables as [|var variables IH]; [done|].
  apply Forall_cons in Hall as [Hvar Hrest].
  rewrite resolve_cons. rewrite bool_decide_eq_true_2 by done. by apply IH.
Qed.

(** With an override, the resolver asks the cluster nothing. *)
Lemma resolve_override (url : string) redirect_url_override variables values log :
  if_output redirect_url_override = Some url →
  values !! "REDIRECT_URL" = None →
  Forall (λ var, is_Some (values !! var) ∨ var = "REDIRECT_URL") variables →
  resolve json_loads cli subprocess_run redirect_url_override variables values log =
    (Returns (if bool_decide ("REDIRECT_URL" ∈ variables)
              then <["REDIRECT_URL" := PStr url]> values else values), log).
Proof.
  intros Hurl Hnone Hall.
  induction variables as [|var variables IH]; [done|].
  apply Forall_cons in Hall as [Hvar Hrest].
  rewrite resolve_cons. is_present var values Hin.
  - rewrite IH by done.
    assert (var ≠ "REDIRECT_URL") by (intros ->; destruct Hin; congruence).
    do 2 f_equal. repeat case_bool_decide; set_unfold; naive_solver.
  - destruct Hvar as [?| ->]; [done|]. rewrite String.eqb_refl, Hurl.
    unfold mret, M_ret.
    assert (truthy (PStr url) = true) as ->.
    { unfold if_output in Hurl. by destruct redirect_url_override as [[|]|]; simplify_eq. }
    rewrite resolve_all_present.
    + rewrite bool_decide_eq_true_2; [done|]. set_solver.
    + eapply Forall_impl; [exact Hrest|]. intros var [[v Hv]| ->].
      * destruct (decide (var = "REDIRECT_URL")) as [->|]; simplify_map_eq; eauto.
      * simplify_map_eq. eauto.
Qed.

(** A name no rule covers ends the run, and the cluster is not asked when
    the URL comes from the override or is not wanted. *)
Lemma resolve_unknown redirect_url_override variables values log var :
  is_Some (if_output redirect_url_override) ∨ "REDIRECT_URL" ∉ variables →
  var ∈ variables → values !! var = None → var ≠ "REDIRECT_URL" →
  resolve json_loads cli subprocess_run redirect_url_override variables values log =
    (Raises (SystemExit 1), log).
Proof.
  intros Hov Hin. revert values Hov.
  induction variables as [|var' variables IH]; intros values Hov Hnone Hne;
    [by apply elem_of_nil in Hin|].
  assert (is_Some (if_output redirect_url_override) ∨ "REDIRECT_URL" ∉ variables)
    as Hov' by (destruct Hov; [by left|right; set_solver]).
  rewrite resolve_cons. is_present var' values Hpresent.
  - apply elem_of_cons in Hin as [->|Hin]; [by rewrite Hnone in Hpresent; destruct Hpresent|].
    by apply IH.
  - destruct (String.eqb_spec var' "REDIRECT_URL") as [->|Hvar'].
    + destruct Hov as [[url Hurl]|Hnot]; [|set_solver].
      rewrite Hurl. unfold mret, M_ret.
      assert (truthy (PStr url) = true) as ->.
      { unfold if_output in Hurl.
        by destruct redirect_url_override as [[|]|]; simplify_eq. }
      apply elem_of_cons in Hin as [->|Hin]; [done|].
      apply IH; [done|done| |done]. by rewrite lookup_insert_ne.
    + unfold mret, M_ret. simpl.
      rewrite bool_decide_eq_true_2; [done|].
      by apply eq_None_not_Some.
Qed.

(** What [discover_redirect_url] returns is [None] or a string. *)
Lemma discover_redirect_url_value log log' v :
  discover_redirect_url json_loads cli subprocess_run log = (Returns v, log') →
  v = PNone ∨ ∃ s, v = PStr s.
Proof.
  rewrite discover_redirect_url_eq. simpl.
  assert (match if_output (run_command_value cli subprocess_run GET_ROUTE) with
          | Some host =>
              (Returns (PStr ("https://" +:+ host)),
               log ++ [CONSOLELINK_QUERY cli; ROUTE_QUERY cli])
          | None => (Returns PNone, log ++ [CONSOLELINK_QUERY cli; ROUTE_QUERY cli])
          end = (Returns v, log') → v = PNone ∨ ∃ s, v = PStr s) as Hroute.
  { destruct (if_output _); intros [= <- _]; eauto. }
  destruct (if_output (run_command_value _ _ GET_CONSOLELINK)) as [text|]; [|done].
  destruct (scan_link_output json_loads text) as [[url|]|[]] eqn:Hs; try done.
  intros [= <- _]. apply scan_link_output_Some in Hs as (s & -> & _). eauto.
Qed.

(** What the loop returns: the map it was given, and at most one more
    entry, a non-empty string under [REDIRECT_URL]. *)
Lemma resolve_Returns redirect_url_override variables : ∀ values log values' log',
  resolve json_loads cli subprocess_run redirect_url_override variables values log =
    (Returns values', log') →
  (∀ var, is_Some (values' !! var) ↔ is_Some (values !! var) ∨ var ∈ variables) ∧
  (∀ var v, values !! var = Some v → values' !! var = Some v) ∧
  (∀ var v, values !! var = None → values' !! var = Some v →
            var = "REDIRECT_URL" ∧ ∃ s, v = PStr s ∧ s ≠ "").
Proof.
  induction variables as [|var0 variables IH]; intros values log values' log'.
  { intros [= <- _]. split; [|split]; [set_solver|done|congruence]. }
  rewrite resolve_cons. is_present var0 values Hpresent.
  { intros (Hdom & Hkeep & Hnew)%IH. split; [|done].
    intros var. rewrite Hdom, elem_of_cons. naive_solver. }
  destruct ((if String.eqb var0 "REDIRECT_URL"
             then match if_output redirect_url_override with
                  | Some url => mret (PStr url)
                  | None => discover_redirect_url json_loads cli subprocess_run
                  end
             else mret PNone) log) as [[v|e] log1] eqn:Hdisc; [|done].
  destruct (truthy v) eqn:Hv.
  2:{ rewrite bool_decide_eq_true_2; [done|]. by apply eq_None_not_Some. }
  assert (var0 = "REDIRECT_URL" ∧ ∃ s, v = PStr s ∧ s ≠ "") as [-> (s & -> & Hs)].
  { destruct (String.eqb_spec var0 "REDIRECT_URL") as [->|];
      [|by injection Hdisc as <- _].
    split; [done|].
    destruct (if_output redirect_url_override) as [url|] eqn:Hurl.
    - injection Hdisc as <- _. exists url. split; [done|]. by intros ->.
    - apply discover_redirect_url_value in Hdisc as [->|[s ->]]; [done|].
      exists s. split; [done|]. by intros ->. }
  intros (Hdom & Hkeep & Hnew)%IH.
  apply eq_None_not_Some in Hpresent. split; [|split].
  - intros var. rewrite Hdom, elem_of_cons.
    destruct (decide (var = "REDIRECT_URL")) as [->|]; simplify_map_eq;
      naive_solver.
  - intros var w Hw. apply Hkeep.
    destruct (decide (var = "REDIRECT_URL")) as [->|]; simplify_map_eq; done.
  - intros var w Hnone Hw.
    destruct (decide (var = "REDIRECT_URL")) as [->|].
    + split; [done|]. rewrite (Hkeep "REDIRECT_URL" (PStr s)) in Hw
        by by simplify_map_eq.
      injection Hw as <-. eauto.
    + apply (Hnew var w); [|done]. by simplify_map_eq.
Qed.

(** Without an override, the URL is whatever the discoverer returns, asked
    for once. *)
Lemma resolve_discover redirect_url_override variables values log log' r :
  if_output redirect_url_override = None →
  values !! "REDIRECT_URL" = None →
  Forall (λ var, is_Some (values !! var) ∨ var = "REDIRECT_URL") variables →
  "REDIRECT_URL" ∈ variables →
  discover_redirect_url json_loads cli subprocess_run log = (r, log') →
  resolve json_loads cli subprocess_run redirect_url_override variables values log =
    match r with
    | Returns v =>
        if truthy v then (Returns (<["REDIRECT_URL" := v]> values), log')
        else (Raises (SystemExit 1), log')
    | Raises e => (Raises e, log')
    end.
Proof.
  intros Hov Hnone Hall Hin Hdisc.
  induction variables as [|var variables IH]; [by apply elem_of_nil in Hin|].
  apply Forall_cons in Hall as [Hvar Hrest].
  rewrite resolve_cons. is_present var values Hpresent.
  - apply elem_of_cons in Hin as [<-|Hin];
      [by rewrite Hnone in Hpresent; destruct Hpresent|].
    by apply IH.
  - destruct Hvar as [?| ->]; [done|]. rewrite String.eqb_refl, Hov.
    rewrite Hdisc. destruct r as [v|e]; [|done].
    destruct (truthy v); [|by rewrite bool_decide_eq_true_2].
    apply resolve_all_present.
    eapply Forall_impl; [exact Hrest|]. intros var [[w Hw]| ->].
    + destruct (decide (var = "REDIRECT_URL")) as [->|]; simplify_map_eq; eauto.
    + simplify_map_eq. eauto.
Qed.

End resolver.

(** The map the loop starts from, by its entries. *)
Lemma platform_values_spec (variables : list string) (namespace route_name : pyval) :
  ∃ initial : gmap string pyval,
    initial =
      (let values : gmap string pyval := ∅ in
       let values :=
         if bool_decide ("NAMESPACE" ∈ variables)
         then <["NAMESPACE" := namespace]> values else values in
       if bool_decide ("ROUTE_NAME" ∈ variables)
       then <["ROUTE_NAME" := route_name]> values else values) ∧
    initial !! "REDIRECT_URL" = None ∧
    (∀ var, is_Some (initial !! var) ↔
            var ∈ variables ∧ (var = "NAMESPACE" ∨ var = "ROUTE_NAME")) ∧
    ("NAMESPACE" ∈ variables → initial !! "NAMESPACE" = Some namespace) ∧
    ("ROUTE_NAME" ∈ variables → initial !! "ROUTE_NAME" = Some route_name).
Proof.
  eexists. split; [reflexivity|].
  split; [|split; [|split]]; try intros var; try intros Hin;
    rewrite platform_values_lookup; repeat case_bool_decide;
    try done; try naive_solver.
  all: split; [intros []; naive_solver|naive_solver].
Qed.

Lemma known_present (variables : list string) (initial : gmap string pyval) :
  (∀ var, is_Some (initial !! var) ↔
          var ∈ variables ∧ (var = "NAMESPACE" ∨ var = "ROUTE_NAME")) →
  (∀ var, var ∈ variables → var ∈ KNOWN_VARIABLES) →
  Forall (λ var, is_Some (initial !! var) ∨ var = "REDIRECT_URL") variables.
Proof.
  intros Hdom Hknown. apply Forall_forall. intros var Hin.
  specialize (Hknown var Hin). unfold KNOWN_VARIABLES in Hknown.
  set_unfold in Hknown. rewrite Hdom. naive_solver.
Qed.

(** X12.  A value map that [auto_discover_values] returns is complete and
    nothing more: its keys are exactly the placeholders it was given, all of
    them among [NAMESPACE], [ROUTE_NAME] and [REDIRECT_URL]; the first two
    hold the namespace and route name of the detected platform, and
    [REDIRECT_URL] holds a non-empty string. *)
Theorem auto_discover_values_complete
    (json_loads : string → result pyval) (cli : string)
    (subprocess_run : list string → completed)
    (variables : list string) (redirect_url_override : option string)
    (log log' : command_log) (values : gmap string pyval) :
  auto_discover_values json_loads cli subprocess_run variables redirect_url_override log
    = (Returns values, log') →
  ∃ platform_type namespace route_name log1,
    detect_platform json_loads cli subprocess_run log =
      (Returns (platform_type, namespace, route_name), log1) ∧
    truthy platform_type = true ∧
    dom values = list_to_set variables ∧
    (∀ var, var ∈ variables → var ∈ KNOWN_VARIABLES) ∧
    ("NAMESPACE" ∈ variables → values !! "NAMESPACE" = Some namespace) ∧
    ("ROUTE_NAME" ∈ variables → values !! "ROUTE_NAME" = Some route_name) ∧
    ("REDIRECT_URL" ∈ variables →
       ∃ url, values !! "REDIRECT_URL" = Some (PStr url) ∧ url ≠ "").
Proof.
  rewrite auto_discover_values_eq.
  destruct (detect_platform _ _ _ log) as [[[[pt ns] rn]|e] log1]; [|done].
  destruct (truthy pt) eqn:Hpt; [|done].
  destruct (platform_values_spec variables ns rn)
    as (initial & <- & Hurl & Hdom & Hns & Hrn).
  intros (Hkeys & Hkeep & Hnew)%resolve_Returns.
  exists pt, ns, rn, log1. split; [done|]. split; [done|].
  assert (∀ var, is_Some (values !! var) ↔ var ∈ variables) as Hiff.
  { intros var. rewrite Hkeys, Hdom. naive_solver. }
  split; [|split; [|split; [|split]]].
  - apply set_eq. intros var. by rewrite elem_of_dom, Hiff, elem_of_list_to_set.
  - intros var Hin. unfold KNOWN_VARIABLES.
    destruct (initial !! var) as [v|] eqn:Hv.
    + assert (is_Some (initial !! var)) as Hs by eauto.
      apply Hdom in Hs. set_unfold. naive_solver.
    + apply Hiff in Hin as [v' Hv'].
      destruct (Hnew var v' Hv Hv') as [-> _]. set_solver.
  - intros Hin. by apply Hkeep, Hns.
  - intros Hin. by apply Hkeep, Hrn.
  - intros Hin. apply Hiff in Hin as [v Hv].
    destruct (Hnew "REDIRECT_URL" v Hurl Hv) as (_ & url & -> & ?). eauto.
Qed.

Lemma auto_discover_values_complete_witness :
  ∃ platform_type namespace route_name log1,
    detect_platform (decodes [(ONE_CONFIG_TEXT, ONE_CONFIG)]) "oc"
      (answers [(CONFIG_QUERY "oc", Completed 0 ONE_CONFIG_TEXT);
                (ROUTE_QUERY "oc", Completed 0 "data-science-gateway.apps.example.com")])
      [] = (Returns (platform_type, namespace, route_name), log1) ∧
    truthy platform_type = true.
Proof.
  destruct (auto_discover_values_complete (decodes [(ONE_CONFIG_TEXT, ONE_CONFIG)]) "oc"
              (answers [(CONFIG_QUERY "oc", Completed 0 ONE_CONFIG_TEXT);
                        (ROUTE_QUERY "oc",
                         Completed 0 "data-science-gateway.apps.example.com")])
              ["NAMESPACE"; "REDIRECT_URL"; "ROUTE_NAME"] None []
              [CONFIG_QUERY "oc"; CONSOLELINK_QUERY "oc"; ROUTE_QUERY "oc"]
              (<["REDIRECT_URL" := PStr "https://data-science-gateway.apps.example.com"]>
                 (<["ROUTE_NAME" := PStr "rhods-dashboard"]>
                    (<["NAMESPACE" := PStr "rhoai-apps"]> ∅))))
    as (pt & ns & rn & log1 & Hd & Hpt & _).
  - vm_compute. reflexivity.
  - by exists pt, ns, rn, log1.
Defined.

(** X13.  With a non-empty override and no placeholder beyond the three
    known names, [auto_discover_values] returns as soon as the platform is
    detected, without asking the cluster for the URL: the map has exactly
    the given placeholders, with the namespace and route name of the
    descriptor and the override, as it was given, under [REDIRECT_URL]. *)
Theorem override_used_verbatim
    (json_loads : string → result pyval) (cli : string)
    (subprocess_run : list string → completed)
    (variables : list string) (redirect_url_override : option string) (url : string)
    (log log1 : command_log) (platform_type namespace route_name : pyval) :
  detect_platform json_loads cli subprocess_run log =
    (Returns (platform_type, namespace, route_name), log1) →
  truthy platform_type = true →
  if_output redirect_url_override = Some url →
  (∀ var, var ∈ variables → var ∈ KNOWN_VARIABLES) →
  ∃ values,
    auto_discover_values json_loads cli subprocess_run variables
      redirect_url_override log = (Returns values, log1) ∧
    dom values = list_to_set variables ∧
    ("NAMESPACE" ∈ variables → values !! "NAMESPACE" = Some namespace) ∧
    ("ROUTE_NAME" ∈ variables → values !! "ROUTE_NAME" = Some route_name) ∧
    ("REDIRECT_URL" ∈ variables → values !! "REDIRECT_URL" = Some (PStr url)).
Proof.
  intros Hdetect Hpt Hov Hknown.
  rewrite auto_discover_values_eq, Hdetect, Hpt.
  destruct (platform_values_spec variables namespace route_name)
    as (initial & <- & Hurl & Hdom & Hns & Hrn).
  rewrite (resolve_override _ _ _ url) by eauto using known_present.
  eexists. split; [reflexivity|].
  split; [|split; [|split]].
  - apply set_eq. intros var. rewrite elem_of_dom, elem_of_list_to_set.
    specialize (Hknown var). unfold KNOWN_VARIABLES in Hknown. set_unfold in Hknown.
    case_bool_decide as Hin.
    + destruct (decide (var = "REDIRECT_URL")) as [->|];
        simplify_map_eq; [by eauto|]. rewrite Hdom. naive_solver.
    + rewrite Hdom. split; [naive_solver|]. intros Hvar.
      destruct (Hknown Hvar) as [->|[->|[->|[]]]]; naive_solver.
  - intros Hin. case_bool_decide; simplify_map_eq; first [done|by apply Hns].
  - intros Hin. case_bool_decide; simplify_map_eq; first [done|by apply Hrn].
  - intros Hin. rewrite bool_decide_eq_true_2 by done. by simplify_map_eq.
Qed.

Lemma override_used_verbatim_witness :
  ∃ values,
    auto_discover_values (decodes [(ONE_CONFIG_TEXT, ONE_CONFIG)]) "oc"
      (answers [(CONFIG_QUERY "oc", Completed 0 ONE_CONFIG_TEXT)])
      ["NAMESPACE"; "REDIRECT_URL"] (Some "https://rh-ai.apps.example.com") []
      = (Returns values, [CONFIG_QUERY "oc"]) ∧
    values !! "REDIRECT_URL" = Some (PStr "https://rh-ai.apps.example.com").
Proof.
  destruct (override_used_verbatim (decodes [(ONE_CONFIG_TEXT, ONE_CONFIG)]) "oc"
              (answers [(CONFIG_QUERY "oc", Completed 0 ONE_CONFIG_TEXT)])
              ["NAMESPACE"; "REDIRECT_URL"] (Some "https://rh-ai.apps.example.com")
              "https://rh-ai.apps.example.com" [] [CONFIG_QUERY "oc"]
              (PStr "rhoai") (PStr "rhoai-apps") (PStr "rhods-dashboard"))
    as (values & Hrun & _ & _ & _ & Hurl).
  - vm_compute. reflexivity.
  - reflexivity.
  - reflexivity.
  - intros var Hin. unfold KNOWN_VARIABLES. set_unfold. naive_solver.
  - exists values. split; [done|]. apply Hurl. set_solver.
Defined.

(** X14.  A placeholder other than the three known names ends the run with
    exit status 1 once the platform is detected, and the cluster is not
    asked for the URL, whenever the URL is overridden or not among the
    placeholders. *)
Theorem unknown_placeholder_exits
    (json_loads : string → result pyval) (cli : string)
    (subprocess_run : list string → completed)
    (variables : list string) (redirect_url_override : option string) (var : string)
    (log log1 : command_log) (d : descriptor) :
  detect_platform json_loads cli subprocess_run log = (Returns d, log1) →
  is_Some (if_output redirect_url_override) ∨ "REDIRECT_URL" ∉ variables →
  var ∈ variables →
  var ∉ KNOWN_VARIABLES →
  auto_discover_values json_loads cli subprocess_run variables redirect_url_override log
    = (Raises (SystemExit 1), log1).
Proof.
  intros Hdetect Hov Hin Hunknown. destruct d as [[pt ns] rn].
  rewrite auto_discover_values_eq, Hdetect.
  destruct (truthy pt); [|done].
  destruct (platform_values_spec variables ns rn)
    as (initial & <- & Hurl & Hdom & _).
  unfold KNOWN_VARIABLES in Hunknown. set_unfold in Hunknown.
  apply (resolve_unknown _ _ _ _ _ _ _ var); try done; [|naive_solver].
  apply eq_None_not_Some. rewrite Hdom. naive_solver.
Qed.

Lemma unknown_placeholder_exits_witness :
  auto_discover_values (decodes [(ONE_CONFIG_TEXT, ONE_CONFIG)]) "oc"
    (answers [(CONFIG_QUERY "oc", Completed 0 ONE_CONFIG_TEXT)])
    ["NAMESPACE"; "TLS_SECRET"] None [] =
  (Raises (SystemExit 1), [CONFIG_QUERY "oc"]).
Proof.
  apply (unknown_placeholder_exits (decodes [(ONE_CONFIG_TEXT, ONE_CONFIG)]) "oc"
           (answers [(CONFIG_QUERY "oc", Completed 0 ONE_CONFIG_TEXT)])
           ["NAMESPACE"; "TLS_SECRET"] None "TLS_SECRET" [] [CONFIG_QUERY "oc"]
           (PStr "rhoai", PStr "rhoai-apps", PStr "rhods-dashboard")).
  - vm_compute. reflexivity.
  - right. set_unfold. naive_solver.
  - set_solver.
  - unfold KNOWN_VARIABLES. set_unfold. naive_solver.
Defined.

(** X15.  Without an override, when [REDIRECT_URL] is among the (known)
    placeholders, the resolver asks [discover_redirect_url] once, right after
    the detection.  What that returns is stored under [REDIRECT_URL]; if it
    returns [None] or the empty string the run ends with exit status 1; if it
    raises, so does the resolver. *)
Theorem url_from_discoverer
    (json_loads : string → result pyval) (cli : string)
    (subprocess_run : list string → completed)
    (variables : list string) (redirect_url_override : option string)
    (log log1 log2 : command_log) (platform_type namespace route_name : pyval)
    (r : result pyval) :
  detect_platform json_loads cli subprocess_run log =
    (Returns (platform_type, namespace, route_name), log1) →
  truthy platform_type = true →
  if_output redirect_url_override = None →
  (∀ var, var ∈ variables → var ∈ KNOWN_VARIABLES) →
  "REDIRECT_URL" ∈ variables →
  discover_redirect_url json_loads cli subprocess_run log1 = (r, log2) →
  match r with
  | Returns v =>
      if truthy v then
        ∃ values,
          auto_discover_values json_loads cli subprocess_run variables
            redirect_url_override log = (Returns values, log2) ∧
          values !! "REDIRECT_URL" = Some v ∧
          dom values = list_to_set variables
      else
        auto_discover_values json_loads cli subprocess_run variables
          redirect_url_override log = (Raises (SystemExit 1), log2)
  | Raises e =>
      auto_discover_values json_loads cli subprocess_run variables
        redirect_url_override log = (Raises e, log2)
  end.
Proof.
  intros Hdetect Hpt Hov Hknown Hin Hdisc.
  rewrite auto_discover_values_eq, Hdetect, Hpt.
  destruct (platform_values_spec variables namespace route_name)
    as (initial & <- & Hurl & Hdom & _).
  rewrite (resolve_discover _ _ _ _ _ _ _ log2 r) by eauto using known_present.
  destruct r as [v|e]; [|done]. destruct (truthy v); [|done].
  eexists. split; [reflexivity|]. split; [by simplify_map_eq|].
  apply set_eq. intros var. rewrite elem_of_dom, elem_of_list_to_set.
  specialize (Hknown var). unfold KNOWN_VARIABLES in Hknown. set_unfold in Hknown.
  destruct (decide (var = "REDIRECT_URL")) as [->|];
    simplify_map_eq; [by eauto|]. rewrite Hdom. naive_solver.
Qed.

Lemma url_from_discoverer_witness :
  auto_discover_values (decodes [(ONE_CONFIG_TEXT, ONE_CONFIG);
                                 (SLASH_LINK_TEXT, SLASH_LINK)]) "oc"
    (answers [(CONFIG_QUERY "oc", Completed 0 ONE_CONFIG_TEXT);
              (CONSOLELINK_QUERY "oc", Completed 0 SLASH_LINK_TEXT);
              (ROUTE_QUERY "oc", Completed 0 "data-science-gateway.apps.example.com")])
    ["NAMESPACE"; "REDIRECT_URL"] None [] =
  (Raises (SystemExit 1), [CONFIG_QUERY "oc"; CONSOLELINK_QUERY "oc"]).
Proof.
  apply (url_from_discoverer
           (decodes [(ONE_CONFIG_TEXT, ONE_CONFIG); (SLASH_LINK_TEXT, SLASH_LINK)]) "oc"
           (answers [(CONFIG_QUERY "oc", Completed 0 ONE_CONFIG_TEXT);
                     (CONSOLELINK_QUERY "oc", Completed 0 SLASH_LINK_TEXT);
                     (ROUTE_QUERY "oc",
                      Completed 0 "data-science-gateway.apps.example.com")])
           ["NAMESPACE"; "REDIRECT_URL"] None
           [] [CONFIG_QUERY "oc"] [CONFIG_QUERY "oc"; CONSOLELINK_QUERY "oc"]
           (PStr "rhoai") (PStr "rhoai-apps") (PStr "rhods-dashboard")
           (Returns (PStr ""))).
  - vm_compute. reflexivity.
  - reflexivity.
  - reflexivity.
  - intros var Hin. unfold KNOWN_VARIABLES. set_unfold. naive_solver.
  - set_solver.
  - vm_compute. reflexivity.
Defined.

(** ** [render_template] and [discover_variables] on a template given by its
    pieces *)

Section pieces.

Import Template.
Implicit Types (s rest name : string) (segs : list segment)
               (values : gmap string string).

Lemma template_text_Placeholder name segs :
  template_text (Placeholder name :: segs) =
  placeholder_text name (template_text segs).
Proof.
  simpl. unfold placeholder_text. by rewrite !app_String, app_assoc.
Qed.

Lemma substitute_from_text values s rest :
  has_char "$" s = false →
  substitute_from values 0 (s +:+ rest) =
  String.app s <$> substitute_from values 0 rest.
Proof.
  induction s as [|c s IH]; intros Hs.
  { rewrite app_empty_l. by destruct (substitute_from values 0 rest). }
  simpl in Hs. apply orb_false_elim in Hs as [Hc Hs].
  rewrite app_String. simpl. rewrite Hc, IH by done.
  by destruct (substitute_from values 0 rest).
Qed.

Lemma finditer_text s rest :
  has_char "$" s = false → Re.finditer (s +:+ rest) = Re.finditer rest.
Proof.
  induction s as [|c s IH]; intros Hs; [done|].
  simpl in Hs. apply orb_false_elim in Hs as [Hc Hs].
  rewrite app_String, finditer_plain_char; [by apply IH|].
  intros ->. by rewrite Ascii.eqb_refl in Hc.
Qed.

Lemma substitute_from_placeholder values name rest :
  is_identifier name = true →
  substitute_from values 0 (placeholder_text name rest) =
  v ← getitem values name; String.app v <$> substitute_from values 0 rest.
Proof.
  intros Hname. unfold placeholder_text.
  change (substitute_from values 0 (String "$" (String "{" (name +:+ String "}" rest))))
    with (match after_delimiter (String "{" (name +:+ String "}" rest)) with
          | Escaped =>
              String "$" <$>
                substitute_from values 1 (String "{" (name +:+ String "}" rest))
          | Named n =>
              v ← getitem values n;
              String.app v <$>
                substitute_from values (String.length n)
                  (String "{" (name +:+ String "}" rest))
          | Braced n =>
              v ← getitem values n;
              String.app v <$>
                substitute_from values (2 + String.length n)
                  (String "{" (name +:+ String "}" rest))
          | Invalid => Raises ValueError
          end).
  rewrite after_delimiter_placeholder by done.
  destruct (getitem values name) as [v|e]; [|done]. simpl.
  by rewrite substitute_from_skip.
Qed.

(** Substitution goes through the pieces from left to right: it copies
    text, puts values in, and stops at the first name without a value. *)
Lemma substitute_pieces values segs :
  forallb plain_segment segs = true →
  substitute (template_text segs) values =
  match first_missing values segs with
  | None => Returns (expand values segs)
  | Some name => Raises (KeyError name)
  end.
Proof.
  unfold substitute. induction segs as [|[s|name] segs IH]; [done|..];
    intros [Hseg Hsegs]%andb_prop.
  - simpl in *. rewrite substitute_from_text by by apply negb_true_iff.
    rewrite IH by done. by destruct (first_missing values segs).
  - rewrite template_text_Placeholder, substitute_from_placeholder by done.
    simpl. unfold getitem. destruct (values !! name) as [v|]; [|done]. simpl.
    rewrite IH by done. by destruct (first_missing values segs).
Qed.

Lemma finditer_pieces segs :
  forallb plain_segment segs = true →
  Re.finditer (template_text segs) = placeholders segs.
Proof.
  induction segs as [|[s|name] segs IH]; [done|..];
    intros [Hseg Hsegs]%andb_prop.
  - simpl in *. rewrite finditer_text by by apply negb_true_iff. by apply IH.
  - rewrite template_text_Placeholder, finditer_placeholder by done.
    simpl. by rewrite IH.
Qed.

Lemma first_missing_None values segs :
  first_missing values segs = None ↔
  ∀ name, name ∈ placeholders segs → is_Some (values !! name).
Proof.
  induction segs as [|[s|name] segs IH]; simpl.
  - split; [|done]. by intros _ name ?%elem_of_nil.
  - done.
  - destruct (values !! name) as [v|] eqn:Hv.
    + rewrite IH. split.
      * intros H n [->|?]%elem_of_cons; eauto.
      * intros H n ?. apply H. by right.
    + split; [done|]. intros H.
      destruct (H name) as [? ?]; [by left|congruence].
Qed.

End pieces.

(** X16.  For a template made of text without ["$"] and [${identifier}]
    placeholders, the extractor reports the placeholders completely: the scan
    finds every one of them, in the order and as often as they are written,
    and [discover_variables] is that list sorted, each name once. *)
Theorem discover_variables_pieces (segs : list segment) :
  forallb plain_segment segs = true →
  Re.finditer (template_text segs) = placeholders segs ∧
  discover_variables (template_text segs) =
    sorted (list_to_set (placeholders segs)) ∧
  ∀ name, name ∈ discover_variables (template_text segs) ↔ name ∈ placeholders segs.
Proof.
  intros Hplain. pose proof (finditer_pieces segs Hplain) as Hfind.
  split; [done|]. split.
  - unfold discover_variables. rewrite Hfind. f_equal.
    apply set_eq. intros name.
    rewrite elem_of_collect, elem_of_empty, elem_of_list_to_set. tauto.
  - intros name. by rewrite elem_of_discover_variables, Hfind.
Qed.

Lemma discover_variables_pieces_witness :
  discover_variables "namespace: ${NAMESPACE} to: ${REDIRECT_URL} (${NAMESPACE})" =
  sorted (list_to_set ["NAMESPACE"; "REDIRECT_URL"; "NAMESPACE"]).
Proof.
  apply (discover_variables_pieces
           [Text "namespace: "; Placeholder "NAMESPACE"; Text " to: ";
            Placeholder "REDIRECT_URL"; Text " ("; Placeholder "NAMESPACE";
            Text ")"]).
  vm_compute. reflexivity.
Defined.

(** X17.  On such a template, when every placeholder has a value, the
    substitution returns the template with each placeholder replaced by its
    value and all other text as it was; this is what is written when no host
    override is given and no legacy route is due. *)
Theorem render_expands urlparse_hostname
    (segs : list segment) (values : gmap string string) :
  forallb plain_segment segs = true →
  (∀ name, name ∈ placeholders segs → is_Some (values !! name)) →
  substitute_values (template_text segs) values = Returns (expand values segs) ∧
  (match values !! "REDIRECT_URL" with
   | Some redirect_url => contains "rh-ai" redirect_url = false
   | None => True
   end →
   render_template urlparse_hostname (template_text segs) values None =
     Returns (expand values segs)).
Proof.
  intros Hplain Hall.
  assert (substitute_values (template_text segs) values =
            Returns (expand values segs)) as Hsub.
  { unfold substitute_values. rewrite substitute_pieces by done.
    by apply first_missing_None in Hall as ->. }
  split; [done|]. intros Hurl. by apply render_template_plain.
Qed.

Lemma render_expands_witness :
  render_template Url.hostname "namespace: ${NAMESPACE} to: ${REDIRECT_URL}"
    (<["NAMESPACE" := "opendatahub"]>
       {["REDIRECT_URL" := "https://odh.apps.example.com"]}) None =
  Returns "namespace: opendatahub to: https://odh.apps.example.com".
Proof.
  destruct (render_expands Url.hostname
              [Text "namespace: "; Placeholder "NAMESPACE"; Text " to: ";
               Placeholder "REDIRECT_URL"]
              (<["NAMESPACE" := "opendatahub"]>
                 {["REDIRECT_URL" := "https://odh.apps.example.com"]}))
    as [_ Hrender].
  - vm_compute. reflexivity.
  - intros name Hin. set_unfold in Hin.
    destruct Hin as [->|[->|[]]]; by simplify_map_eq.
  - apply Hrender. vm_compute. reflexivity.
Defined.

(** X18.  On such a template, a placeholder without a value ends the run
    with exit status 1, whatever the host override and the URL are: nothing
    is injected or appended, and the URL is not parsed. *)
Theorem render_missing_value urlparse_hostname
    (segs : list segment) (values : gmap string string)
    (route_host_override : option string) (name : string) :
  forallb plain_segment segs = true →
  name ∈ placeholders segs →
  values !! name = None →
  render_template urlparse_hostname (template_text segs) values route_host_override =
    Raises (SystemExit 1).
Proof.
  intros Hplain Hin Hnone.
  unfold render_template, substitute_values. rewrite substitute_pieces by done.
  destruct (first_missing values segs) as [missing|] eqn:Hm; [done|].
  rewrite first_missing_None in Hm. destruct (Hm name Hin). congruence.
Qed.

Lemma render_missing_value_witness :
  render_template Url.hostname "namespace: ${NAMESPACE} to: ${REDIRECT_URL}"
    {["REDIRECT_URL" := "https://rh-ai.apps.example.com"]}
    (Some "old.apps.example.com") =
  Raises (SystemExit 1).
Proof.
  apply (render_missing_value Url.hostname
           [Text "namespace: "; Placeholder "NAMESPACE"; Text " to: ";
            Placeholder "REDIRECT_URL"]
           {["REDIRECT_URL" := "https://rh-ai.apps.example.com"]}
           (Some "old.apps.example.com") "NAMESPACE").
  - vm_compute. reflexivity.
  - set_solver.
  - by simplify_map_eq.
Defined.

(** ** Host injection and legacy route, in general *)

Section hosts.

Implicit Types (s label domain : string).

Lemma replace_first_absent old new s :
  contains old s = false → replace_first old new s = s.
Proof.
  induction s as [|c s IH]; intros Hs; rewrite replace_first_unfold.
  - change (contains old "") with (String.prefix old "" || false) in Hs.
    by apply orb_false_elim in Hs as [-> _].
  - rewrite contains_String in Hs. apply orb_false_elim in Hs as [-> Hs].
    by rewrite IH.
Qed.

Lemma split_once_dot label domain :
  has_char "." label = false →
  split_once "." (label +:+ String "." domain) = [label; domain].
Proof.
  induction label as [|c label IH]; intros Hl; [done|].
  simpl in Hl. apply orb_false_elim in Hl as [Hc Hl].
  rewrite app_String. simpl. by rewrite Hc, IH.
Qed.

Lemma split_once_no_dot s :
  has_char "." s = false → split_once "." s = [s].
Proof.
  induction s as [|c s IH]; intros Hs; [done|].
  simpl in Hs. apply orb_false_elim in Hs as [Hc Hs].
  simpl. by rewrite Hc, IH.
Qed.

Lemma legacy_host_of_dot label domain :
  has_char "." label = false →
  legacy_host_of (Some (label +:+ String "." domain)) =
    Some ("data-science-gateway." +:+ domain).
Proof.
  intros Hl. unfold legacy_host_of.
  destruct (label +:+ String "." domain) as [|c h] eqn:Hh.
  { by destruct label. }
  by rewrite <-Hh, split_once_dot.
Qed.

Lemma legacy_host_of_no_dot (hostname : option string) :
  match hostname with
  | Some h => has_char "." h = false
  | None => True
  end →
  legacy_host_of hostname = None.
Proof.
  destruct hostname as [[|c h]|]; try done. intros Hh.
  unfold legacy_host_of. by rewrite split_once_no_dot.
Qed.

End hosts.

(** X19.  When the substituted text has no ["spec:\n  port:"] in it, the host
    override changes nothing: what is written, or raised, is the same as
    without the override. *)
Theorem route_host_ignored_without_marker urlparse_hostname
    (content : string) (values : gmap string string)
    (route_host_override : option string) (rendered : string) :
  substitute_values content values = Returns rendered →
  contains SPEC_PORT rendered = false →
  inject_route_host rendered route_host_override = rendered ∧
  render_template urlparse_hostname content values route_host_override =
    render_template urlparse_hostname content values None.
Proof.
  intros Hsub Habsent.
  assert (inject_route_host rendered route_host_override = rendered) as Hinj.
  { unfold inject_route_host. destruct (if_output _); [|done].
    by apply replace_first_absent. }
  split; [done|]. unfold render_template. rewrite Hsub. simpl. by rewrite Hinj.
Qed.

Lemma route_host_ignored_without_marker_witness :
  render_template Url.hostname "kind: Service" ∅ (Some "old.apps.example.com") =
  render_template Url.hostname "kind: Service" ∅ None.
Proof.
  apply (route_host_ignored_without_marker Url.hostname "kind: Service" ∅
           (Some "old.apps.example.com") "kind: Service");
    vm_compute; reflexivity.
Defined.





(** ** What is asked of the cluster, and [main] *)

Section commands.

Context (json_loads : string → result pyval) (cli : string)
        (subprocess_run : list string → completed).

Implicit Types (log : command_log) (values : gmap string pyval)
               (variables : list string).

Lemma queries_are_get :
  is_get cli (CONFIG_QUERY cli) ∧ is_get cli (RHOAI_QUERY cli) ∧
  is_get cli (ODH_QUERY cli) ∧ is_get cli (CONSOLELINK_QUERY cli) ∧
  is_get cli (ROUTE_QUERY cli).
Proof. repeat split; by eexists. Qed.

Lemma detect_platform_get log log' r :
  detect_platform json_loads cli subprocess_run log = (r, log') →
  ∃ issued, log' = log ++ issued ∧ Forall (is_get cli) issued.
Proof.
  intros (issued & -> & Hsub)%detect_platform_queries.
  exists issued. split; [done|]. apply Forall_forall. intros argv Hin%Hsub.
  destruct queries_are_get as (? & ? & ? & _).
  set_unfold in Hin. by destruct Hin as [->|[->|[->|[]]]].
Qed.

Lemma discover_redirect_url_get log log' r :
  discover_redirect_url json_loads cli subprocess_run log = (r, log') →
  ∃ issued, log' = log ++ issued ∧ Forall (is_get cli) issued.
Proof.
  destruct queries_are_get as (_ & _ & _ & ? & ?).
  rewrite discover_redirect_url_eq. simpl.
  repeat case_match; intros [= _ <-]; eexists; (split; [reflexivity|]);
    by repeat constructor.
Qed.

Lemma resolve_get redirect_url_override variables : ∀ values log log' r,
  resolve json_loads cli subprocess_run redirect_url_override variables values log
    = (r, log') →
  ∃ issued, log' = log ++ issued ∧ Forall (is_get cli) issued.
Proof.
  induction variables as [|var variables IH]; intros values log log' r.
  { intros [= _ <-]. exists []. by rewrite app_nil_r. }
  rewrite resolve_cons. case_bool_decide; [by apply IH|].
  destruct ((if String.eqb var "REDIRECT_URL"
             then match if_output redirect_url_override with
                  | Some url => mret (PStr url)
                  | None => discover_redirect_url json_loads cli subprocess_run
                  end
             else mret PNone) log) as [rd log1] eqn:Hdisc.
  assert (∃ issued, log1 = log ++ issued ∧ Forall (is_get cli) issued)
    as (issued1 & -> & Hget1).
  { destruct (String.eqb var "REDIRECT_URL");
      [destruct (if_output redirect_url_override)|];
      try (injection Hdisc as _ <-; exists []; by rewrite app_nil_r).
    by eapply discover_redirect_url_get. }
  assert (∀ values', resolve json_loads cli subprocess_run redirect_url_override
                       variables values' (log ++ issued1) = (r, log') →
    ∃ issued, log' = log ++ issued ∧ Forall (is_get cli) issued) as Hrest.
  { intros values' (issued2 & -> & Hget2)%IH. exists (issued1 ++ issued2).
    split; [by rewrite (assoc_L (++))|]. by apply Forall_app. }
  destruct rd as [v|e]; [|intros [= _ <-]; eauto].
  destruct (truthy v); [by apply Hrest|].
  case_bool_decide; [intros [= _ <-]; eauto|by apply Hrest].
Qed.

Lemma auto_discover_values_get variables redirect_url_override log log' r :
  auto_discover_values json_loads cli subprocess_run variables
    redirect_url_override log = (r, log') →
  ∃ issued, log' = log ++ issued ∧ Forall (is_get cli) issued.
Proof.
  rewrite auto_discover_values_eq.
  destruct (detect_platform _ _ _ log) as [[[[pt ns] rn]|e] log1] eqn:Hdetect;
    apply detect_platform_get in Hdetect as (issued1 & -> & Hget1);
    [|intros [= _ <-]; eauto].
  destruct (truthy pt); [|intros [= _ <-]; eauto].
  intros (issued2 & -> & Hget2)%resolve_get. exists (issued1 ++ issued2).
  split; [by rewrite (assoc_L (++))|]. by apply Forall_app.
Qed.

End commands.

(** X22.  Whatever the cluster answers and however the run ends,
    [auto_discover_values] only reads: every command it runs is the tool
    followed by [get]. *)
Theorem auto_discover_values_reads_only
    (json_loads : string → result pyval) (cli : string)
    (subprocess_run : list string → completed)
    (variables : list string) (redirect_url_override : option string)
    (log log' : command_log) (r : result (gmap string pyval)) :
  auto_discover_values json_loads cli subprocess_run variables
    redirect_url_override log = (r, log') →
  ∃ issued, log' = log ++ issued ∧
            ∀ argv, argv ∈ issued → ∃ rest, argv = cli :: "get" :: rest.
Proof.
  intros (issued & -> & Hget)%auto_discover_values_get.
  exists issued. split; [done|]. by apply Forall_forall.
Qed.

Lemma auto_discover_values_reads_only_witness :
  ∃ issued,
    [CONFIG_QUERY "oc"; CONSOLELINK_QUERY "oc"; ROUTE_QUERY "oc"] = [] ++ issued ∧
    ∀ argv, argv ∈ issued → ∃ rest, argv = "oc" :: "get" :: rest.
Proof.
  apply (auto_discover_values_reads_only (decodes [(ONE_CONFIG_TEXT, ONE_CONFIG)]) "oc"
           (answers [(CONFIG_QUERY "oc", Completed 0 ONE_CONFIG_TEXT);
                     (ROUTE_QUERY "oc",
                      Completed 0 "data-science-gateway.apps.example.com")])
           ["NAMESPACE"; "REDIRECT_URL"; "ROUTE_NAME"] None []
           [CONFIG_QUERY "oc"; CONSOLELINK_QUERY "oc"; ROUTE_QUERY "oc"]
           (Returns
              (<["REDIRECT_URL" := PStr "https://data-science-gateway.apps.example.com"]>
                 (<["ROUTE_NAME" := PStr "rhods-dashboard"]>
                    (<["NAMESPACE" := PStr "rhoai-apps"]> ∅))))).
  vm_compute. reflexivity.
Defined.

Section main_facts.

Context (which : string → bool) (json_loads : string → result pyval)
        (subprocess_run : list string → completed)
        (urlparse_hostname : string → result (option string))
        (py_str : pyval → string).

Implicit Types (log : command_log) (content : string).

Lemma main_eq content (redirect_url route_host : option string) log :
  main which json_loads subprocess_run urlparse_hostname py_str
    (Some content) redirect_url route_host log =
  match get_cli_tool which with
  | Returns cli =>
      if bool_decide (discover_variables content = []) then
        (Raises (SystemExit 0), log)
      else
        match auto_discover_values json_loads cli subprocess_run
                (discover_variables content) redirect_url log with
        | (Returns values, log') =>
            (render_template urlparse_hostname content (py_str <$> values) route_host,
             log')
        | (Raises e, log') => (Raises e, log')
        end
  | Raises e => (Raises e, log)
  end.
Proof.
  unfold main, pure, mbind, M_bind.
  destruct (get_cli_tool which) as [cli|e]; [|done].
  case_bool_decide; [done|].
  by destruct (auto_discover_values _ _ _ _ _ log) as [[values|e] log'].
Qed.

Lemma get_cli_tool_choice :
  get_cli_tool which = Raises (SystemExit 1) ∨
  get_cli_tool which = Returns (if which "oc" then "oc" else "kubectl").
Proof.
  unfold get_cli_tool. destruct (which "oc"); [by right|].
  destruct (which "kubectl"); [by right|by left].
Qed.

End main_facts.

Lemma discover_variables_nil (content : string) :
  discover_variables content = [] ↔ Re.finditer content = [].
Proof.
  split.
  - intros Hnil. destruct (Re.finditer content) as [|name names] eqn:Hf; [done|].
    assert (name ∈ discover_variables content) as Hin
      by (rewrite elem_of_discover_variables, Hf; by left).
    rewrite Hnil in Hin. by apply elem_of_nil in Hin.
  - intros Hf. unfold discover_variables. rewrite Hf. reflexivity.
Qed.

Lemma expand_ext (m1 m2 : gmap string string) (segs : list segment) :
  (∀ name, name ∈ placeholders segs → m1 !! name = m2 !! name) →
  expand m1 segs = expand m2 segs.
Proof.
  induction segs as [|[s|name] segs IH]; intros Hagree; simpl; [done|..].
  - by rewrite IH.
  - rewrite (Hagree name) by by left.
    rewrite IH; [done|]. intros n Hn. apply Hagree. by right.
Qed.

(** X23.  A template in which the scan finds no [${...}] marker makes [main]
    stop with exit status 0 as soon as a tool is found: the cluster is not
    asked anything and no manifest is written, whatever else the template
    says. *)
Theorem main_without_placeholders
    (which : string → bool) (json_loads : string → result pyval)
    (subprocess_run : list string → completed)
    (urlparse_hostname : string → result (option string))
    (py_str : pyval → string)
    (content : string) (redirect_url route_host : option string)
    (log : command_log) :
  Re.finditer content = [] →
  which "oc" = true ∨ which "kubectl" = true →
  main which json_loads subprocess_run urlparse_hostname py_str
    (Some content) redirect_url route_host log =
  (Raises (SystemExit 0), log).
Proof.
  intros Hnone Htool. rewrite main_eq.
  assert (∃ cli, get_cli_tool which = Returns cli) as [cli ->].
  { unfold get_cli_tool. destruct (which "oc"); [by eexists|].
    destruct Htool as [?| ->]; [done|by eexists]. }
  rewrite bool_decide_eq_true_2; [done|]. by apply discover_variables_nil.
Qed.

Lemma main_without_placeholders_witness :
  main (λ tool, String.eqb tool "kubectl") (decodes []) (answers []) Url.hostname
    (λ _, "") (Some "kind: Route # costs $5 {}") None (Some "old.example.com") [] =
  (Raises (SystemExit 0), []).
Proof.
  apply (main_without_placeholders (λ tool, String.eqb tool "kubectl") (decodes [])
           (answers []) Url.hostname (λ _, "") "kind: Route # costs $5 {}" None
           (Some "old.example.com") []).
  - vm_compute. reflexivity.
  - right. reflexivity.
Defined.

(** X24.  However a run of [main] ends, every command it ran is a [get] of
    the tool [get_cli_tool] chose: [oc] when that is on the path, [kubectl]
    otherwise.  (With neither, or without a template, it runs nothing.) *)
Theorem main_reads_only
    (which : string → bool) (json_loads : string → result pyval)
    (subprocess_run : list string → completed)
    (urlparse_hostname : string → result (option string))
    (py_str : pyval → string)
    (template_file redirect_url route_host : option string)
    (log log' : command_log) (r : result string) :
  main which json_loads subprocess_run urlparse_hostname py_str
    template_file redirect_url route_host log = (r, log') →
  ∃ issued, log' = log ++ issued ∧
    (∀ argv, argv ∈ issued →
       ∃ rest, argv = (if which "oc" then "oc" else "kubectl") :: "get" :: rest) ∧
    ((which "oc" = false ∧ which "kubectl" = false) ∨ template_file = None →
       issued = [] ∧ r = Raises (SystemExit 1)).
Proof.
  assert (∀ l : command_log, l = l ++ []) as Hnil by (intros; by rewrite app_nil_r).
  destruct template_file as [content|]; [|intros [= <- <-]].
  2:{ exists []. split; [apply Hnil|]. split; [by intros ? ?%elem_of_nil|done]. }
  rewrite main_eq. destruct (get_cli_tool_choice which) as [Hcli|Hcli]; rewrite Hcli.
  { intros [= <- <-]. exists []. split; [apply Hnil|].
    split; [by intros ? ?%elem_of_nil|done]. }
  assert (¬ ((which "oc" = false ∧ which "kubectl" = false) ∨ Some content = None))
    as Htool.
  { intros [[Hoc Hk]|]; [|done]. unfold get_cli_tool in Hcli.
    by rewrite Hoc, Hk in Hcli. }
  case_bool_decide.
  { intros [= <- <-]. exists []. split; [apply Hnil|].
    split; [by intros ? ?%elem_of_nil|done]. }
  destruct (auto_discover_values _ _ _ _ _ log) as [r' log1] eqn:Hauto.
  apply auto_discover_values_get in Hauto as (issued & -> & Hget).
  intros Hmain. assert (log' = log ++ issued) as ->.
  { by destruct r' as [values|e]; injection Hmain as _ <-. }
  exists issued. split; [done|]. split; [|done].
  intros argv Hin. apply (proj1 (Forall_forall _ _) Hget argv Hin).
Qed.

Lemma main_reads_only_witness :
  ∃ issued,
    [CONFIG_QUERY "kubectl"] = [] ++ issued ∧
    (∀ argv, argv ∈ issued →
       ∃ rest, argv = (if String.eqb "oc" "kubectl" then "oc" else "kubectl")
                       :: "get" :: rest).
Proof.
  destruct (main_reads_only (λ tool, String.eqb tool "kubectl")
              (decodes [(ONE_CONFIG_TEXT, ONE_CONFIG)])
              (answers [(CONFIG_QUERY "kubectl", Completed 0 ONE_CONFIG_TEXT)])
              Url.hostname (λ _, "")
              (Some "namespace: ${NAMESPACE} tls: ${TLS_SECRET}") None None
              [] [CONFIG_QUERY "kubectl"] (Raises (SystemExit 1)))
    as (issued & Hlog & Hget & _).
  - vm_compute. reflexivity.
  - by exists issued.
Defined.

(** X25.  The whole run, when all goes well.  For a template made of text
    without ["$"] and at least one [${identifier}] placeholder, all of them
    among the three known names; a tool on the path; a platform detected
    with a string namespace; and a non-empty override for the URL that does
    not contain ["rh-ai"]: [main] writes the template with [NAMESPACE] and
    [ROUTE_NAME] replaced by what was detected and [REDIRECT_URL] by the
    override (and the host override injected, if any), and asks the cluster
    nothing after the detection. *)
Theorem main_renders
    (which : string → bool) (json_loads : string → result pyval)
    (subprocess_run : list string → completed)
    (urlparse_hostname : string → result (option string))
    (py_str : pyval → string)
    (segs : list segment) (redirect_url route_host : option string)
    (log log1 : command_log) (cli kind namespace route_name url : string) :
  (∀ s, py_str (PStr s) = s) →
  forallb plain_segment segs = true →
  placeholders segs ≠ [] →
  (∀ name, name ∈ placeholders segs → name ∈ KNOWN_VARIABLES) →
  get_cli_tool which = Returns cli →
  detect_platform json_loads cli subprocess_run log =
    (Returns (PStr kind, PStr namespace, PStr route_name), log1) →
  kind ≠ "" →
  if_output redirect_url = Some url →
  contains "rh-ai" url = false →
  main which json_loads subprocess_run urlparse_hostname py_str
    (Some (template_text segs)) redirect_url route_host log =
  (Returns
     (inject_route_host
        (expand
           (<["NAMESPACE" := namespace]>
              (<["ROUTE_NAME" := route_name]> {["REDIRECT_URL" := url]}))
           segs)
        route_host),
   log1).
Proof.
  intros Hstr Hplain Hsome Hknown Hcli Hdetect Hkind Hov Hrhai.
  set (variables := discover_variables (template_text segs)).
  assert (∀ name, name ∈ variables ↔ name ∈ placeholders segs) as Hvars.
  { intros name. unfold variables.
    by rewrite elem_of_discover_variables, finditer_pieces. }
  rewrite main_eq, Hcli. fold variables.
  rewrite bool_decide_eq_false_2.
  2:{ intros Hnil. destruct (placeholders segs) as [|name names]; [done|].
      assert (name ∈ variables) as Hin by (apply Hvars; by left).
      rewrite Hnil in Hin. by apply elem_of_nil in Hin. }
  rewrite auto_discover_values_eq, Hdetect.
  assert (truthy (PStr kind) = true) as -> by (simpl; by destruct kind).
  destruct (platform_values_spec variables (PStr namespace) (PStr route_name))
    as (initial & <- & Hurl & Hdom & Hns & Hrn).
  rewrite (resolve_override _ _ _ url).
  2: done. 2: done.
  2:{ apply known_present; [done|]. intros name Hin. by apply Hknown, Hvars. }
  set (values := if bool_decide ("REDIRECT_URL" ∈ variables)
                 then <["REDIRECT_URL" := PStr url]> initial else initial).
  set (wanted := <["NAMESPACE" := namespace]>
                   (<["ROUTE_NAME" := route_name]>
                      ({["REDIRECT_URL" := url]} : gmap string string))).
  assert (∀ name, name ∈ placeholders segs →
                  (py_str <$> values) !! name = wanted !! name ∧
                  is_Some (wanted !! name)) as Hagree.
  { intros name Hin. pose proof (Hknown name Hin) as Hk.
    apply Hvars in Hin. unfold KNOWN_VARIABLES in Hk. set_unfold in Hk.
    rewrite lookup_fmap. unfold values, wanted.
    destruct Hk as [->|[->|[->|[]]]].
    - case_bool_decide; simplify_map_eq; rewrite ?Hns by done; simpl;
        rewrite Hstr; eauto.
    - case_bool_decide; simplify_map_eq; rewrite ?Hrn by done; simpl;
        rewrite Hstr; eauto.
    - rewrite bool_decide_eq_true_2 by done. simplify_map_eq.
      rewrite Hstr. eauto. }
  f_equal. unfold render_template, substitute_values.
  rewrite substitute_pieces by done.
  assert (first_missing (py_str <$> values) segs = None) as ->.
  { apply first_missing_None. intros name Hin.
    destruct (Hagree name Hin) as [-> ?]. done. }
  simpl. rewrite (expand_ext _ wanted) by (intros name Hin; by apply Hagree).
  unfold append_legacy_route.
  assert ((py_str <$> values) !! "REDIRECT_URL" = Some url ∨
          (py_str <$> values) !! "REDIRECT_URL" = None) as Hru.
  { rewrite lookup_fmap. unfold values. case_bool_decide; simplify_map_eq.
    - left. by rewrite Hstr.
    - right. by rewrite ?Hurl. }
  destruct Hru as [Hru|Hru]; rewrite Hru; [by rewrite Hrhai|done].
Qed.

Lemma main_renders_witness :
  main (λ _, true) (decodes [(ONE_CONFIG_TEXT, ONE_CONFIG)])
    (answers [(CONFIG_QUERY "oc", Completed 0 ONE_CONFIG_TEXT)])
    Url.hostname
    (λ v, match v with PStr s => s | _ => "" end)
    (Some (template_text
             [Text "namespace: "; Placeholder "NAMESPACE"; Text " to: ";
              Placeholder "REDIRECT_URL"]))
    (Some "https://dashboard.apps.example.com") None [] =
  (Returns "namespace: rhoai-apps to: https://dashboard.apps.example.com",
   [CONFIG_QUERY "oc"]).
Proof.
  apply (main_renders (λ _, true) (decodes [(ONE_CONFIG_TEXT, ONE_CONFIG)])
           (answers [(CONFIG_QUERY "oc", Completed 0 ONE_CONFIG_TEXT)])
           Url.hostname
           (λ v, match v with PStr s => s | _ => "" end)
           [Text "namespace: "; Placeholder "NAMESPACE"; Text " to: ";
            Placeholder "REDIRECT_URL"]
           (Some "https://dashboard.apps.example.com") None
           [] [CONFIG_QUERY "oc"] "oc" "rhoai" "rhoai-apps" "rhods-dashboard"
           "https://dashboard.apps.example.com").
  - done.
  - vm_compute. reflexivity.
  - done.
  - intros name Hin. unfold KNOWN_VARIABLES. set_unfold. simpl in Hin.
    set_unfold in Hin. naive_solver.
  - reflexivity.
  - vm_compute. reflexivity.
  - done.
  - reflexivity.
  - vm_compute. reflexivity.
Defined.
